(** * NyaaStats: the player data aggregation pipeline of [src/utils.js]

    A shallow embedding of the [Utils] class: the uuid validator of
    [getAllPlayers], the name-history client ([getMojangAPI],
    [getNameHistory]) with its process-wide [apiLimited] flag and unlock
    timers, the readers [getPlayerState], [getPlayerAdvancements] and
    [getPlayerData], and the orchestration in [getPlayerTotalData],
    [getPlayerAssets] and [createPlayerData].

    JavaScript numbers are IEEE binary64 values ([PrimFloat.float]); integer
    quantities that the program only stores or compares (timestamps, the
    clock, the configured rate limit) are kept in [Z] and injected with
    [of_Z].  JavaScript objects are finite maps from property names to
    values.  Promises are outcomes ([Resolved], [Rejected], or [Pending] for
    a promise that never settles) threaded through an explicit [world]. *)

From Stdlib Require Import ZArith Floats Ascii String DecimalString List Bool Lia.
From Stdlib Require Import Sorting.Sorted Sorting.Permutation.
From stdpp Require Import gmap strings list.
Import ListNotations.

Local Open Scope string_scope.
Local Open Scope Z_scope.

Set Warnings "-register-all".

(** ** JavaScript values *)

(** The values that [JSON.parse] produces and [JSON.stringify] consumes.
    A property that is missing from an object reads as [undefined], which
    is [None] in [js_get]. *)
Inductive json : Type :=
| JNull
| JBool (b : bool)
| JNum (f : float)
| JStr (s : string)
| JArr (l : list json)
| JObj (m : gmap string json).

(** Conversion of an integer to the nearest binary64 value (ties to even),
    as [Number(...)] and [bignum(...).toNumber()] do. *)
Definition of_Z (z : Z) : float :=
  SF2Prim (binary_normalize prec emax z 0 false).

Definition is_nan (f : float) : bool := negb (PrimFloat.eqb f f).

(** [ToBoolean]: [null], [false], [0], [-0], [NaN] and [''] are falsy. *)
Definition truthy (v : json) : bool :=
  match v with
  | JNull => false
  | JBool b => b
  | JNum f => negb (PrimFloat.eqb f 0%float || is_nan f)
  | JStr s => negb (String.eqb s "")
  | JArr _ => true
  | JObj _ => true
  end.

(** [ToBoolean] of a possibly undefined value. *)
Definition truthy_opt (v : option json) : bool :=
  match v with
  | None => false
  | Some x => truthy x
  end.

(** Decimal rendering of an array index, the property names of array
    elements and string characters. *)
Definition index_key (i : nat) : string :=
  NilEmpty.string_of_uint (Nat.to_uint i).

Fixpoint index_props {A} (f : A -> json) (i : nat) (l : list A) : gmap string json :=
  match l with
  | [] => ∅
  | x :: l' => <[index_key i := f x]> (index_props f (S i) l')
  end.

(** Own enumerable properties, as copied by object spread [{...v}]:
    the fields of an object, the elements of an array, the characters of a
    string, nothing for the other primitives. *)
Definition own_props (v : json) : gmap string json :=
  match v with
  | JObj m => m
  | JArr l => index_props (fun x => x) 0 l
  | JStr s => index_props (fun c => JStr (String c EmptyString)) 0 (list_ascii_of_string s)
  | _ => ∅
  end.

(** Property read [v.k] for the names [stats], [data] and [banned] used by
    the program; only objects carry them ([None] is [undefined]). *)
Definition js_get (v : json) (k : string) : option json :=
  match v with
  | JObj m => m !! k
  | _ => None
  end.

(** Property write [v.k = x]; the program only writes to a value it has
    just read a truthy property from, hence an object. *)
Definition js_set (v : json) (k : string) (x : json) : json :=
  match v with
  | JObj m => JObj (<[k := x]> m)
  | _ => v
  end.

(** ** Strings and paths *)

(** [s.replace(/-/g, '')] *)
Fixpoint strip_dashes (s : string) : string :=
  match s with
  | EmptyString => EmptyString
  | String c s' =>
      if Ascii.eqb c "-"%char then strip_dashes s' else String c (strip_dashes s')
  end.

(** [path.join(a, b)], without Node's normalisation of [.], [..] and
    repeated separators.  Like Node's, the result is never the empty
    string. *)
Definition path_join (a b : string) : string := a ++ "/" ++ b.

(** Whether [s] ends with [suffix]. *)
Definition ends_with (suffix s : string) : bool :=
  let n := String.length s in
  let k := String.length suffix in
  (k <=? n)%nat && String.eqb (substring (n - k) k s) suffix.

(** [path.basename(f, ext)] on a bare file name, as [readdirSync] lists
    them: the extension is removed when [f] ends with it and is longer. *)
Definition basename_ext (f ext : string) : string :=
  if ends_with ext f && negb (String.eqb f ext)
  then substring 0 (String.length f - String.length ext) f
  else f.

(** ** The uuid validator of [getAllPlayers] *)

Module UuidRegex.

(** A member of a character class: a range [lo-hi] or a single
    character. *)
Inductive cc_item : Type :=
| CRange (lo hi : ascii)
| CChar (c : ascii).

(** An atom with its [{n}] quantifier (1 when there is none). *)
Record piece : Type := Piece { p_class : list cc_item; p_count : nat }.

(** A pattern [^p1 p2 ... pn$]: a sequence of quantified classes,
    anchored at both ends. *)
Definition regex : Type := list piece.

Definition hex : list cc_item := [CRange "0" "9"; CRange "a" "f"].
Definition dash : piece := Piece [CChar "-"] 1.

(** [/^[0-9a-f]{8}-[0-9a-f]{4}-[1-5][0-9a-f]{3}-[89ab][0-9a-f]{3}-[0-9a-f]{12}$/i] *)
Definition uuid_regex : regex :=
  [ Piece hex 8; dash;
    Piece hex 4; dash;
    Piece [CRange "1" "5"] 1; Piece hex 3; dash;
    Piece [CChar "8"; CChar "9"; CChar "a"; CChar "b"] 1; Piece hex 3; dash;
    Piece hex 12 ].

(** The characters a class item denotes. *)
Definition item_chars (it : cc_item) : list ascii :=
  match it with
  | CRange lo hi =>
      map ascii_of_nat (seq (nat_of_ascii lo) (S (nat_of_ascii hi) - nat_of_ascii lo))
  | CChar c => [c]
  end.

Definition class_chars (cls : list cc_item) : list ascii :=
  flat_map item_chars cls.

(** [Canonicalize] under the [i] flag (no [u] flag): the upper-case
    mapping; a character outside [a-z] of the 8-bit alphabet is never
    mapped onto an ASCII character. *)
Definition canonicalize (c : ascii) : ascii :=
  let n := nat_of_ascii c in
  if ((97 <=? n) && (n <=? 122))%nat then ascii_of_nat (n - 32) else c.

(** A class matches a character when some member of the class has the
    same canonical form. *)
Definition class_test_i (cls : list cc_item) (c : ascii) : bool :=
  existsb (fun ch => Ascii.eqb (canonicalize ch) (canonicalize c)) (class_chars cls).

(** Consume exactly [n] characters of the class; the rest of the input
    is returned. *)
Fixpoint match_count (cls : list cc_item) (n : nat) (s : list ascii) : option (list ascii) :=
  match n with
  | O => Some s
  | S n' =>
      match s with
      | [] => None
      | c :: s' => if class_test_i cls c then match_count cls n' s' else None
      end
  end.

Fixpoint match_seq (r : regex) (s : list ascii) : option (list ascii) :=
  match r with
  | [] => Some s
  | p :: r' =>
      match match_count (p_class p) (p_count p) s with
      | Some rest => match_seq r' rest
      | None => None
      end
  end.

(** [r.test(s)] for an anchored pattern: the whole input is consumed. *)
Definition test (r : regex) (s : string) : bool :=
  match match_seq r (list_ascii_of_string s) with
  | Some [] => true
  | _ => false
  end.

(** [getAllPlayers], on the listing of the player data directory. *)
Definition getAllPlayers (listing : list string) : list string :=
  List.filter (test uuid_regex) (map (fun f => basename_ext f ".dat") listing).

(** *** The validator in the words of the specification *)

Definition is_hex (c : ascii) : Prop :=
  In c (list_ascii_of_string "0123456789abcdefABCDEF").

Definition is_version (c : ascii) : Prop :=
  In c (list_ascii_of_string "12345").

Definition is_variant (c : ascii) : Prop :=
  In c (list_ascii_of_string "89abAB").

(** The canonical 8-4-4-4-12 form: five groups of hexadecimal digits of
    either case separated by dashes, the third group opening with the
    version nibble and the fourth with the variant nibble. *)
Definition canonical_uuid (s : string) : Prop :=
  exists g1 g2 v g3 r g4 g5,
    list_ascii_of_string s =
      (g1 ++ ["-"%char] ++ g2 ++ ["-"%char] ++ (v :: g3) ++ ["-"%char]
          ++ (r :: g4) ++ ["-"%char] ++ g5)%list
    /\ List.length g1 = 8%nat /\ List.length g2 = 4%nat
    /\ List.length g3 = 3%nat /\ List.length g4 = 3%nat
    /\ List.length g5 = 12%nat
    /\ Forall is_hex g1 /\ Forall is_hex g2 /\ Forall is_hex g3
    /\ Forall is_hex g4 /\ Forall is_hex g5
    /\ is_version v /\ is_variant r.

(** Membership of a character in the characters of a string. *)
Definition mem (l : string) (c : ascii) : bool :=
  existsb (Ascii.eqb c) (list_ascii_of_string l).

End UuidRegex.

(** ** Files, effects and promises *)

(** One entry of the name history served by the external service. *)
Record name_entry : Type := NameEntry {
  name : string;
  changedToAt : option Z
}.

(** The tags of a decoded player file that [getPlayerData] selects.
    [None] is a tag (or an enclosing compound) that is absent, for which
    [select] returns [null]. *)
Record nbt_player : Type := NbtPlayer {
  ticksLived : option Z;
  firstPlayed : option Z;
  lastPlayed : option Z
}.

(** What lives at a path: a directory, a file whose text is the JSON
    value [j], a zlib-compressed NBT player file, or any other file. *)
Inductive file : Type :=
| Dir
| FileJson (j : json)
| FileNbt (p : nbt_player)
| FileOther.

(** Observable effects, most recent first in the trace. *)
Inductive event : Type :=
| EvLog (logger level tag : string) (subject : string)
| EvRequest (url : string)
| EvDownload (url dest : string).

(** A pending [setTimeout(() => { this.apiLimited = false }, delay)]:
    when it was set and the delay that was passed. *)
Record timer : Type := Timer { t_set : Z; t_delay : Z }.

(** Node runs a timer no sooner than its delay, and replaces a delay
    below 1 or above 2147483647 by 1. *)
Definition node_delay (d : Z) : Z :=
  if (d <? 1) || (2147483647 <? d) then 1 else d.

Definition timer_due (t : timer) : Z := t_set t + node_delay (t_delay t).

(** The state shared by all calls: the [apiLimited] flag of the [Utils]
    instance, the unlock timers, the clock (milliseconds), the file
    system and the trace of effects. *)
Record world : Type := World {
  apiLimited : bool;
  timers : list timer;
  clock : Z;
  files : gmap string file;
  trace : list event
}.

Definition set_apiLimited (b : bool) (w : world) : world :=
  World b (timers w) (clock w) (files w) (trace w).
Definition set_timers (ts : list timer) (w : world) : world :=
  World (apiLimited w) ts (clock w) (files w) (trace w).
Definition set_clock (t : Z) (w : world) : world :=
  World (apiLimited w) (timers w) t (files w) (trace w).
Definition set_files (fs : gmap string file) (w : world) : world :=
  World (apiLimited w) (timers w) (clock w) fs (trace w).
Definition emit (e : event) (w : world) : world :=
  World (apiLimited w) (timers w) (clock w) (files w) (e :: trace w).

(** [setTimeout(() => { this.apiLimited = false }, d)] *)
Definition setTimeout_unlock (d : Z) (w : world) : world :=
  set_timers (Timer (clock w) d :: timers w) w.

Definition is_due (now : Z) (t : timer) : bool := timer_due t <=? now.

(** Run the callbacks of the timers that are due: each clears the flag. *)
Definition fire_due (w : world) : world :=
  if existsb (is_due (clock w)) (timers w)
  then set_apiLimited false
         (set_timers (List.filter (fun t => negb (is_due (clock w) t)) (timers w)) w)
  else w.

(** Let [d] milliseconds pass while the caller is suspended. *)
Definition advance (d : Z) (w : world) : world :=
  fire_due (set_clock (clock w + d) w).

(** The value a promise is rejected with, or that is thrown: [undefined]
    (a bare [reject()]), or an [Error] with its message and any further
    properties. *)
Inductive jserror : Type :=
| ErrUndefined
| ErrError (message : string) (props : gmap string json).

Definition err_message (e : jserror) : string :=
  match e with
  | ErrUndefined => "undefined"
  | ErrError m _ => m
  end.

(** The fate of a promise; [Pending] is a promise that is never settled. *)
Inductive outcome (A : Type) : Type :=
| Resolved (a : A)
| Rejected (e : jserror)
| Pending.
Arguments Resolved {A} a.
Arguments Rejected {A} e.
Arguments Pending {A}.

(** An asynchronous computation over the world.  [None] means that the
    fuel given to the polling loop of [getMojangAPI] ran out. *)
Definition M (A : Type) : Type := world -> option (world * outcome A).

Definition ret {A} (a : A) : M A := fun w => Some (w, Resolved a).
Definition reject {A} (e : jserror) : M A := fun w => Some (w, Rejected e).
Definition hang {A} : M A := fun w => Some (w, Pending).

(** [await m] followed by the continuation [k]. *)
Definition bind {A B} (m : M A) (k : A -> M B) : M B := fun w =>
  match m w with
  | None => None
  | Some (w', Resolved a) => k a w'
  | Some (w', Rejected e) => Some (w', Rejected e)
  | Some (w', Pending) => Some (w', Pending)
  end.

(** [try { m } catch (e) { h e }] *)
Definition try_catch {A} (m : M A) (h : jserror -> M A) : M A := fun w =>
  match m w with
  | Some (w', Rejected e) => h e w'
  | r => r
  end.

(** A synchronous effect on the world. *)
Definition effect (f : world -> world) : M unit := fun w => Some (f w, Resolved tt).

Notation "'let*' x ':=' m 'in' k" := (bind m (fun x => k))
  (at level 10, x pattern, m at level 100, k at level 200).
Notation "m ';;' k" := (bind m (fun _ => k))
  (at level 100, k at level 200, right associativity).

(** [fs.existsSync(p)] *)
Definition existsSync (w : world) (p : string) : bool :=
  match files w !! p with
  | Some _ => true
  | None => false
  end.

(** [JSON.parse(fs.readFileSync(p))]: reading throws when nothing or a
    directory is at [p]; parsing throws unless the text is JSON. *)
Definition read_json (w : world) (p : string) : jserror + json :=
  match files w !! p with
  | None => inl (ErrError "ENOENT" ∅)
  | Some Dir => inl (ErrError "EISDIR" ∅)
  | Some (FileJson j) => inr j
  | Some _ => inl (ErrError "SyntaxError" ∅)
  end.

(** [fs.readFileSync(p)] alone: whether the read succeeds. *)
Definition readable (w : world) (p : string) : bool :=
  match files w !! p with
  | None | Some Dir => false
  | Some _ => true
  end.

(** [nbt.loadFromZlibCompressedFile(p, cb)]: the decoded tags, or [None]
    for the [err] argument of the callback. *)
Definition load_nbt (w : world) (p : string) : option nbt_player :=
  match files w !! p with
  | Some (FileNbt n) => Some n
  | _ => None
  end.

(** The directories on the way to a path, outermost first and the path
    itself last: the prefixes that end where a non-empty component ends.
    [pre] is the prefix read so far, [inside] tells whether the component
    being read has a character yet. *)
Fixpoint dir_chain_from (pre : string) (inside : bool) (s : string) : list string :=
  match s with
  | EmptyString => if inside then [pre] else []
  | String c s' =>
      if Ascii.eqb c "/"
      then ((if inside then [pre] else []) ++ dir_chain_from (pre ++ "/") false s')%list
      else dir_chain_from (pre ++ String c EmptyString) true s'
  end.

Definition dir_chain (p : string) : list string := dir_chain_from "" false p.

(** Something that is not a directory is at [q]. *)
Definition not_a_directory (w : world) (q : string) : bool :=
  match files w !! q with
  | Some Dir | None => false
  | Some _ => true
  end.

(** Create the directories of a chain that are missing. *)
Fixpoint make_dirs (chain : list string) (fs : gmap string file) : gmap string file :=
  match chain with
  | [] => fs
  | q :: rest =>
      make_dirs rest (match fs !! q with
                      | None => <[q := Dir]> fs
                      | Some _ => fs
                      end)
  end.

(** [fs.ensureDirSync(p)] of fs-extra, a recursive [mkdir]: throws when
    something that is not a directory is at [p] or at one of the
    directories on the way to it; otherwise creates those that are
    missing. *)
Definition ensureDirSync (p : string) (w : world) : world * option jserror :=
  if existsb (not_a_directory w) (dir_chain p)
  then (w, Some (ErrError "ENOTDIR" ∅))
  else (set_files (make_dirs (dir_chain p) (files w)) w, None).

(** ** Configuration and collaborators *)

(** The keys of [config.yml] that the pipeline reads. *)
Record config : Type := Config {
  render_playerdata : string;
  render_stats : option string;
  render_advancements : option string;
  render_output : string;
  api_ratelimit : Z
}.

(** What [axios.get] comes back with: a 2xx response with its body
    ([None] for an empty, falsy body), or a failure (timeout, other
    status, network error). *)
Inductive http_result : Type :=
| HttpOk (body : option (list name_entry))
| HttpFail.

(** The collaborators of [Utils]: the configuration, the external
    service (its answer to a request issued at a given time, and how many
    milliseconds the answer takes), and the helpers [mergeStats] and
    [defaultSkin] of [./helper]. *)
Record env : Type := Env {
  cfg : config;
  http : string -> Z -> http_result * nat;
  mergeStats : json -> json;
  defaultSkin : string -> string
}.

(** Modelled from the spec: [delay] of [./helper] is missing; it suspends
    the caller for the given number of time units. *)
Definition delay (d : Z) : M unit := effect (advance d).

(** Modelled from the spec: [download] of [./helper] is missing; each
    download is independent and best-effort, a failure is logged and
    reaches neither the other downloads nor the caller. *)
Definition download (url dest : string) (w : world) : world :=
  emit (EvDownload url dest) w.

(** Modelled from the spec: [writeJSON] of [./helper] is missing; it
    persists the snapshot to the cache file. *)
Definition writeJSON (p : string) (data : json) (w : world) : world :=
  set_files (<[p := FileJson data]> (files w)) w.

(** Truthiness of an optional path of the configuration. *)
Definition configured (p : option string) : option string :=
  match p with
  | Some s => if String.eqb s "" then None else Some s
  | None => None
  end.

(** ** The name-history client *)

(** [Array.prototype.sort(cmp)]: a stable sort; an element goes before
    the first one it does not compare greater than. *)
Fixpoint js_insert {A} (cmp : A -> A -> Z) (x : A) (l : list A) : list A :=
  match l with
  | [] => [x]
  | y :: l' => if cmp x y <=? 0 then x :: y :: l' else y :: js_insert cmp x l'
  end.

Fixpoint js_sort {A} (cmp : A -> A -> Z) (l : list A) : list A :=
  match l with
  | [] => []
  | x :: l' => js_insert cmp x (js_sort cmp l')
  end.

(** The number that [JSON.parse] makes of an integer literal, given by
    its value: the nearest binary64 number (ties to even), which is an
    integer again, the literal itself up to 2^53 in magnitude; a literal
    out of range becomes an infinity, valued here at 2^1024. *)
Definition double_value (t : Z) : Z :=
  match binary_normalize prec emax t 0 false with
  | S754_zero _ => 0
  | S754_finite s m e => if s then - Z.shiftl (Zpos m) e else Z.shiftl (Zpos m) e
  | S754_infinity s => if s then - 2 ^ 1024 else 2 ^ 1024
  | S754_nan => 0
  end.

(** [e.changedToAt || 0], on the parsed numbers. *)
Definition changed_or_0 (e : name_entry) : Z :=
  match changedToAt e with
  | Some t => if double_value t =? 0 then 0 else double_value t
  | None => 0
  end.

(** [(a, b) => (b.changedToAt || 0) - (a.changedToAt || 0)], given by the
    exact difference of the two numbers.  The double that the subtraction
    returns has the sign of that difference (it is 0 or [NaN], which
    [sort] takes for 0, exactly when the two numbers are equal), and
    [sort] looks at the sign of the result only. *)
Definition history_cmp (a b : name_entry) : Z := changed_or_0 b - changed_or_0 a.

(** The milliseconds of one unit of the configured rate limit. *)
Definition base_delay : Z := 1000.

(** [this.config.api.ratelimit && this.apiLimited] *)
Definition must_wait (E : env) (w : world) : bool :=
  negb (api_ratelimit (cfg E) =? 0) && apiLimited w.

(** [getMojangAPI] from the lock to the request: the flag is set and the
    request is issued. *)
Definition api_acquire (url : string) (w : world) : world :=
  emit (EvRequest url)
    (emit (EvLog "MojangAPI" "info" "REQUEST" url) (set_apiLimited true w)).

(** [getMojangAPI] once [axios.get] has settled with [res]. *)
Definition api_settle (E : env) (url : string) (res : http_result) (w : world)
  : world * outcome (option (list name_entry)) :=
  match res with
  | HttpFail =>
      (setTimeout_unlock (api_ratelimit (cfg E) * 3000)
         (emit (EvLog "MojangAPI" "error" "REQUEST" url) w),
       Rejected (ErrError "Error" ∅))
  | HttpOk body =>
      (setTimeout_unlock (api_ratelimit (cfg E) * 1000) w, Resolved body)
  end.

Fixpoint getMojangAPI (E : env) (fuel : nat) (apiPath : string)
  : M (option (list name_entry)) := fun w =>
  match fuel with
  | O => None
  | S fuel' =>
      if must_wait E w
      then (delay 10 ;; getMojangAPI E fuel' apiPath) w
      else
        let w1 := api_acquire apiPath w in
        let '(res, latency) := http E apiPath (clock w1) in
        Some (api_settle E apiPath res (advance (Z.of_nat latency) w1))
  end.

Definition apiNameHistory (uuid : string) : string :=
  "https://api.mojang.com/user/profiles/" ++ uuid ++ "/names".

(** [getNameHistory]: [None] is the [null] it returns. *)
Definition getNameHistory (E : env) (fuel : nat) (uuid : string)
  : M (option (list name_entry)) :=
  let* history :=
    try_catch (getMojangAPI E fuel (apiNameHistory uuid)) (fun _ => ret None) in
  match history with
  | None => ret None
  | Some h => ret (Some (js_sort history_cmp h))
  end.

(** ** Readers *)

(** [getPlayerState]: the merged and the source statistics. *)
Definition getPlayerState (E : env) (uuid : string) : M (json * json) := fun w =>
  match configured (render_stats (cfg E)) with
  | None => Some (w, Rejected ErrUndefined)
  | Some dir =>
      let statsfile := path_join dir (uuid ++ ".json") in
      if readable w statsfile then
        let w1 := emit (EvLog "PlayerData" "info" "READ" statsfile) w in
        match read_json w statsfile with
        | inr data => Some (w1, Resolved (mergeStats E data, data))
        | inl e => Some (w1, Rejected e)
        end
      else
        Some (emit (EvLog "PlayerData" "warn" "READ" statsfile) w, Rejected ErrUndefined)
  end.

Definition getPlayerAdvancements (E : env) (uuid : string) : M json := fun w =>
  match configured (render_advancements (cfg E)) with
  | None => Some (w, Rejected ErrUndefined)
  | Some dir =>
      let advancementsfile := path_join dir (uuid ++ ".json") in
      if readable w advancementsfile then
        let w1 := emit (EvLog "PlayerData" "info" "READ" advancementsfile) w in
        match read_json w advancementsfile with
        | inr data => Some (w1, Resolved data)
        | inl e => Some (w1, Rejected e)
        end
      else
        Some (emit (EvLog "PlayerData" "warn" "READ" advancementsfile) w,
              Rejected ErrUndefined)
  end.

Definition entry_json (e : name_entry) : json :=
  JObj (match changedToAt e with
        | Some t => <["changedToAt" := JNum (of_Z t)]> {[ "name" := JStr (name e) ]}
        | None => {[ "name" := JStr (name e) ]}
        end).

(** [let lived = ''; if (select('Spigot.ticksLived')) lived = getValue() / 20] *)
Definition lived_of (n : nbt_player) : json :=
  match ticksLived n with
  | Some t => JNum (PrimFloat.div (of_Z t) 20%float)
  | None => JStr ""
  end.

(** The object literal [pdata] of [getPlayerData]. *)
Definition pdata_of (n : nbt_player) (timeStart timeLast : Z)
    (first : name_entry) (history : list name_entry)
    (uuid : string) (now : Z) : json :=
  JObj (list_to_map
    [ ("seen", JNum (of_Z timeLast));
      ("time_start", JNum (of_Z timeStart));
      ("time_last", JNum (of_Z timeLast));
      ("time_lived", lived_of n);
      ("playername", JStr (name first));
      ("names", JArr (map entry_json history));
      ("uuid_short", JStr (strip_dashes uuid));
      ("lastUpdate", JNum (of_Z now));
      ("uuid", JStr uuid) ]).

(** [getPlayerData].  A tag missing under [bukkit] makes the [async]
    callback throw, and the promise is then never settled. *)
Definition getPlayerData (E : env) (fuel : nat) (uuid : string) : M json := fun w =>
  let datafile := path_join (render_playerdata (cfg E)) (uuid ++ ".dat") in
  match load_nbt w datafile with
  | None => Some (emit (EvLog "PlayerData" "warn" "READ" datafile) w, Rejected ErrUndefined)
  | Some n =>
      (let* history :=
         try_catch (getNameHistory E fuel (strip_dashes uuid))
                   (fun _ => reject ErrUndefined) in
       match history with
       | Some (first :: rest) =>
           match firstPlayed n, lastPlayed n with
           | Some timeStart, Some timeLast =>
               fun w' => Some (w', Resolved
                 (pdata_of n timeStart timeLast first (first :: rest) uuid (clock w')))
           | _, _ => hang
           end
       | _ => reject ErrUndefined
       end) (emit (EvLog "PlayerData" "info" "READ" datafile) w)
  end.

(** ** The aggregator *)

(** [getPlayerTotalData]: the snapshot, or [null]. *)
Definition getPlayerTotalData (E : env) (fuel : nat) (uuid : string) : M json :=
  try_catch
    (let* s := getPlayerState E uuid in
     let* advancements := getPlayerAdvancements E uuid in
     let* data := getPlayerData E fuel uuid in
     ret (JObj (list_to_map
       [ ("stats", fst s); ("stats_source", snd s);
         ("advancements", advancements); ("data", data) ])))
    (fun _ => ret JNull).

Definition apiPrefixAvatar : string := "https://crafatar.com/avatars/".
Definition apiPrefixBody : string := "https://crafatar.com/renders/body/".
Definition apiPrefixSkin : string := "https://crafatar.com/skins/".

(** [getPlayerAssets]: the three downloads, unless the directory cannot
    be ensured, in which case the error is thrown. *)
Definition getPlayerAssets (E : env) (uuid playerpath : string) : M unit := fun w =>
  match ensureDirSync playerpath w with
  | (w1, Some e) => Some (w1, Rejected e)
  | (w1, None) =>
      let slim := "&default=MHF_" ++ defaultSkin E uuid in
      let w2 := download (apiPrefixAvatar ++ uuid ++ "?size=64&overlay" ++ slim)
                         (path_join playerpath "avatar.png") w1 in
      let w3 := download (apiPrefixBody ++ uuid ++ "?size=128&overlay" ++ slim)
                         (path_join playerpath "body.png") w2 in
      let w4 := download (apiPrefixSkin ++ uuid ++ "?" ++ slim)
                         (path_join playerpath "skin.png") w3 in
      Some (w4, Resolved tt)
  end.

(** [a && b] on strings: [a] when it is empty, [b] otherwise. *)
Definition js_and (a b : string) : string :=
  if String.eqb a "" then a else b.

(** [data && data.stats && data.data] *)
Definition complete (data : json) : bool :=
  truthy data && truthy_opt (js_get data "stats") && truthy_opt (js_get data "data").

(** [{ ...data.data, banned }] *)
Definition with_banned (data : json) (banned : bool) : json :=
  JObj (<["banned" := JBool banned]>
          (match js_get data "data" with
           | Some d => own_props d
           | None => ∅
           end)).

(** [createPlayerData(uuid, banned)] *)
Definition createPlayerData (E : env) (fuel : nat) (uuid : string) (banned : bool)
  : M json :=
  let playerpath := path_join (render_output (cfg E)) (strip_dashes uuid) in
  let* data :=
    (fun w =>
       if existsSync w (path_join playerpath "stats.json")
       then match read_json w (path_join playerpath "stats.json") with
            | inr j => Some (w, Resolved j)
            | inl e => Some (w, Rejected e)
            end
       else getPlayerTotalData E fuel uuid w) in
  fun w =>
    if existsSync w (js_and (path_join playerpath "avatar.png")
                            (path_join playerpath "body.png"))
    then Some (w, Resolved data)
    else if complete data then
      (try_catch (getPlayerAssets E (strip_dashes uuid) playerpath)
         (fun e => effect (emit (EvLog "PlayerData" "error" "ASSETS" (err_message e)))) ;;
       let data' := js_set data "data" (with_banned data banned) in
       effect (writeJSON (path_join playerpath "stats.json") data') ;;
       ret data') w
    else Some (w, Rejected ErrUndefined).

(** The downloads recorded in a trace, oldest first. *)
Definition downloads (w : world) : list (string * string) :=
  rev (omap (fun e => match e with
                      | EvDownload u d => Some (u, d)
                      | _ => None
                      end) (trace w)).

(** The requests to the name-history service recorded in a trace. *)
Definition requests (w : world) : list string :=
  rev (omap (fun e => match e with
                      | EvRequest u => Some u
                      | _ => None
                      end) (trace w)).

(** ** Concurrent callers of [getMojangAPI]

    The event loop runs one turn at a time.  A call of [getMojangAPI] is
    suspended at [await delay(10)] and at [await axios.get(...)]; between
    two suspensions it runs without interruption. *)

Module Concurrent.

(** Where a call of [getMojangAPI] stands. *)
Inductive caller : Type :=
| Calling (url : string)
| Waiting (url : string) (wake : Z)
| InFlight (url : string)
| Returned (body : option (list name_entry))
| Thrown (e : jserror).

Record system : Type := System {
  shared : world;
  callers : list caller
}.

Definition in_flight (c : caller) : bool :=
  match c with
  | InFlight _ => true
  | _ => false
  end.

(** The number of outbound requests that have been issued and have not
    yet come back. *)
Definition count_in_flight (s : system) : nat :=
  List.length (List.filter in_flight (callers s)).

Definition settled (url : string) (o : outcome (option (list name_entry))) : caller :=
  match o with
  | Resolved body => Returned body
  | Rejected e => Thrown e
  | Pending => InFlight url
  end.

(** One turn of the event loop. *)
Inductive step (E : env) : system -> system -> Prop :=
| step_call s url :
    step E s (System (shared s) (callers s ++ [Calling url]))
| step_wait s i url :
    callers s !! i = Some (Calling url) ->
    must_wait E (shared s) = true ->
    step E s (System (shared s)
                (<[i := Waiting url (clock (shared s) + 10)]> (callers s)))
| step_acquire s i url :
    callers s !! i = Some (Calling url) ->
    must_wait E (shared s) = false ->
    step E s (System (api_acquire url (shared s))
                (<[i := InFlight url]> (callers s)))
| step_wake s i url t :
    callers s !! i = Some (Waiting url t) ->
    t <= clock (shared s) ->
    step E s (System (shared s) (<[i := Calling url]> (callers s)))
| step_settle s i url res :
    callers s !! i = Some (InFlight url) ->
    step E s (System (fst (api_settle E url res (shared s)))
                (<[i := settled url (snd (api_settle E url res (shared s)))]>
                   (callers s)))
| step_timer s k t :
    timers (shared s) !! k = Some t ->
    timer_due t <= clock (shared s) ->
    step E s (System (set_apiLimited false
                        (set_timers (delete k (timers (shared s))) (shared s)))
                (callers s))
| step_tick s d :
    0 <= d ->
    step E s (System (set_clock (clock (shared s) + d) (shared s)) (callers s)).

(** A fresh [Utils] instance: the constructor clears the flag, no timer
    is pending and nobody has called yet. *)
Definition initial (s : system) : Prop :=
  apiLimited (shared s) = false /\ timers (shared s) = [] /\ callers s = [].

Definition reachable (E : env) (s : system) : Prop :=
  exists s0, initial s0 /\ rtc (step E) s0 s.

(** The in-flight calls of a list of callers. *)
Definition flying (l : list caller) : nat := List.length (List.filter in_flight l).

Definition weight (c : caller) : nat := if in_flight c then 1 else 0.

(** The flag is set exactly while a request is in flight or an unlock
    timer is pending, and there is at most one of either. *)
Definition gate_inv (s : system) : Prop :=
  (count_in_flight s + List.length (timers (shared s)) <= 1)%nat
  /\ (apiLimited (shared s) = false ->
      (count_in_flight s + List.length (timers (shared s)) = 0)%nat).

End Concurrent.

(** ** Vocabulary of the properties *)

(** The timestamp of an entry as a number, 0 when the entry has none. *)
Definition stamp (e : name_entry) : Z :=
  match changedToAt e with
  | Some t => double_value t
  | None => 0
  end.

(** The order of a list sorted by [key], largest first. *)
Definition descending {A : Type} (key : A -> Z) (a b : A) : Prop := key b <= key a.

(** A locked gate has an unlock timer pending: some earlier call has
    settled and scheduled it. *)
Definition gate_live (E : env) (w : world) : Prop :=
  must_wait E w = true -> timers w <> [].

(** Worlds that differ only in what the gate does not look at. *)
Definition same_gate (w w' : world) : Prop :=
  apiLimited w' = apiLimited w /\ timers w' = timers w /\ clock w' = clock w.

(** What [getMojangAPI] does once the gate lets it through at [w0]. *)
Definition api_pass (E : env) (url : string) (w0 : world)
  : world * outcome (option (list name_entry)) :=
  api_settle E url (fst (http E url (clock w0)))
    (advance (Z.of_nat (snd (http E url (clock w0)))) (api_acquire url w0)).

(** The history [getNameHistory] returns for an answer of the service. *)
Definition history_of (res : http_result) : option (list name_entry) :=
  match res with
  | HttpOk (Some h) => Some (js_sort history_cmp h)
  | _ => None
  end.

(** The paths [createPlayerData] looks at. *)
Definition playerpath_of (E : env) (uuid : string) : string :=
  path_join (render_output (cfg E)) (strip_dashes uuid).

Definition cachefile_of (E : env) (uuid : string) : string :=
  path_join (playerpath_of E uuid) "stats.json".

Definition avatarfile_of (E : env) (uuid : string) : string :=
  path_join (playerpath_of E uuid) "avatar.png".

Definition bodyfile_of (E : env) (uuid : string) : string :=
  path_join (playerpath_of E uuid) "body.png".

(** [data.data.banned] *)
Definition banned_of (d : json) : option json :=
  match js_get d "data" with
  | Some x => js_get x "banned"
  | None => None
  end.

(** What the three local reads of [getPlayerTotalData] find. *)
Definition stats_source (E : env) (uuid : string) (w : world) : option json :=
  match configured (render_stats (cfg E)) with
  | Some dir =>
      match read_json w (path_join dir (uuid ++ ".json")%string) with
      | inr j => Some j
      | inl _ => None
      end
  | None => None
  end.

Definition advancements_source (E : env) (uuid : string) (w : world) : option json :=
  match configured (render_advancements (cfg E)) with
  | Some dir =>
      match read_json w (path_join dir (uuid ++ ".json")%string) with
      | inr j => Some j
      | inl _ => None
      end
  | None => None
  end.

Definition player_source (E : env) (uuid : string) (w : world) : option nbt_player :=
  load_nbt w (path_join (render_playerdata (cfg E)) (uuid ++ ".dat")%string).


(** The service answers with at least one name at any time. *)
Definition has_history (E : env) (uuid : string) : Prop :=
  forall t, match history_of (fst (http E (apiNameHistory (strip_dashes uuid)) t)) with
            | Some (_ :: _) => True
            | _ => False
            end.


(** The part of [createPlayerData] that follows the loading of [data]. *)
Definition finish (E : env) (uuid : string) (banned : bool) (data : json) : M json :=
  fun w =>
    if existsSync w (bodyfile_of E uuid)
    then Some (w, Resolved data)
    else if complete data then
      (try_catch (getPlayerAssets E (strip_dashes uuid) (playerpath_of E uuid))
         (fun e => effect (emit (EvLog "PlayerData" "error" "ASSETS" (err_message e)))) ;;
       effect (writeJSON (cachefile_of E uuid) (js_set data "data" (with_banned data banned))) ;;
       ret (js_set data "data" (with_banned data banned))) w
    else Some (w, Rejected ErrUndefined).

(** The three downloads of [getPlayerAssets]. *)
Definition asset_downloads (E : env) (uuid : string) : list (string * string) :=
  let short := strip_dashes uuid in
  let slim := ("&default=MHF_" ++ defaultSkin E short)%string in
  [ ((apiPrefixAvatar ++ short ++ "?size=64&overlay" ++ slim)%string, avatarfile_of E uuid);
    ((apiPrefixBody ++ short ++ "?size=128&overlay" ++ slim)%string, bodyfile_of E uuid);
    ((apiPrefixSkin ++ short ++ "?" ++ slim)%string,
     path_join (playerpath_of E uuid) "skin.png") ].

(** Something that is not a directory sits at [p] or on the way to it:
    [ensureDirSync] throws. *)
Definition dir_blocked (w : world) (p : string) : bool :=
  existsb (not_a_directory w) (dir_chain p).

(** Worlds with the same files and the same downloads. *)
Definition calm (w w' : world) : Prop :=
  files w' = files w /\ downloads w' = downloads w.

(** What [getPlayerData] settles with, given the decoded player file and
    the history the lookup produced. *)
Definition player_outcome (n : nbt_player) (uuid : string) (now : Z)
    (h : option (list name_entry)) : outcome json :=
  match h with
  | Some (first :: rest) =>
      match firstPlayed n, lastPlayed n with
      | Some timeStart, Some timeLast =>
          Resolved (pdata_of n timeStart timeLast first (first :: rest) uuid now)
      | _, _ => Pending
      end
  | _ => Rejected ErrUndefined
  end.

(** The object [getPlayerTotalData] assembles. *)
Definition total_of (E : env) (src advancements data : json) : json :=
  JObj (list_to_map
    [ ("stats", mergeStats E src); ("stats_source", src);
      ("advancements", advancements); ("data", data) ]).

(** What [getPlayerTotalData] settles with, given what [getPlayerData]
    settled with. *)
Definition total_outcome (E : env) (src advancements : json) (o : outcome json)
  : outcome json :=
  match o with
  | Resolved data => Resolved (total_of E src advancements data)
  | Rejected _ => Resolved JNull
  | Pending => Pending
  end.

(** The first step of [createPlayerData]: the cache file when there is
    one, [getPlayerTotalData] otherwise. *)
Definition load_data (E : env) (fuel : nat) (uuid : string) : M json := fun w =>
  if existsSync w (cachefile_of E uuid)
  then match read_json w (cachefile_of E uuid) with
       | inr j => Some (w, Resolved j)
       | inl e => Some (w, Rejected e)
       end
  else getPlayerTotalData E fuel uuid w.

(** The player file of [uuid], when it decodes, carries the two
    timestamps [getPlayerData] reads from it. *)
Definition timestamps_present (E : env) (uuid : string) (w : world) : bool :=
  match player_source E uuid w with
  | Some n =>
      match firstPlayed n, lastPlayed n with
      | Some _, Some _ => true
      | _, _ => false
      end
  | None => true
  end.

(** ** The list readers of [Utils] *)

(** [path.join(a)] with a single segment, without normalisation: the
    empty path becomes the current directory. *)
Definition path_join1 (a : string) : string :=
  if String.eqb a "" then "." else a.

(** [p.uuid] inside the [forEach] callback: reading a property of [null]
    throws, any other value gives its [uuid] or [undefined]. *)
Definition uuid_of (p : json) : jserror + option json :=
  match p with
  | JNull => inl (ErrError "TypeError" ∅)
  | _ => inr (js_get p "uuid")
  end.

(** [l.forEach((p) => { uuids.push(p.uuid) })]: the first throw aborts
    the loop and the list built so far is lost. *)
Fixpoint collect_uuids (l : list json) : jserror + list (option json) :=
  match l with
  | [] => inr []
  | p :: l' =>
      match uuid_of p with
      | inl e => inl e
      | inr u =>
          match collect_uuids l' with
          | inl e => inl e
          | inr us => inr (u :: us)
          end
      end
  end.

(** [JSON.parse(fs.readFileSync(p, 'utf8')).forEach(...)]: only an array
    has [forEach]. *)
Definition read_uuid_list (w : world) (p : string) : jserror + list (option json) :=
  match read_json w p with
  | inl e => inl e
  | inr (JArr l) => collect_uuids l
  | inr _ => inl (ErrError "TypeError" ∅)
  end.

(** [getWhitelistedPlayers], given [config.render.whitelist]. *)
Definition getWhitelistedPlayers (whitelist : string) (w : world)
  : jserror + list (option json) :=
  read_uuid_list w whitelist.

(** [getBannedPlayers], given [config.render['banned-players']]. *)
Definition getBannedPlayers (banned_players : string) (w : world)
  : jserror + list (option json) :=
  read_uuid_list w (path_join1 banned_players).

(** ** The membership table of the player view *)

(** What the view borrows: the translation [t], [normalizeDate(val,
    'short')], and the rendering of the seconds lived as a distance in
    hours ([add] and [formatDistanceStrict] of date-fns).  The two
    renderings are taken where they return a text; date-fns throws a
    [RangeError] on a time it cannot represent, and what [membership]
    says of a rendered value holds for the values that can be rendered. *)
Record view_env : Type := ViewEnv {
  translate : string -> string;
  normalizeDate : json -> string;
  formatOnline : json -> string
}.

(** The value of a row: a JavaScript value handed through as it is
    ([None] for [undefined]), or a rendered text. *)
Inductive cell : Type :=
| CellRaw (v : option json)
| CellText (s : string).

Record row : Type := Row { label : string; value : cell }.

(** [this.player?.data.k]: a [null] or [undefined] player short-circuits
    to [undefined]; otherwise [data] is read, and reading [k] of a [null]
    or [undefined] [data] throws. *)
Definition player_field (player : option json) (k : string) : jserror + option json :=
  match player with
  | None | Some JNull => inr None
  | Some p =>
      match js_get p "data" with
      | None | Some JNull => inl (ErrError "TypeError" ∅)
      | Some d => inr (js_get d k)
      end
  end.

(** [formatDate (val) { return val && normalizeDate(val, 'short') }] *)
Definition formatDate (V : view_env) (val : option json) : cell :=
  match val with
  | Some v => if truthy v then CellText (normalizeDate V v) else CellRaw (Some v)
  | None => CellRaw None
  end.

(** The computed property [membership]. *)
Definition membership (V : view_env) (player : option json) : jserror + list row :=
  match player_field player "time_last" with
  | inl e => inl e
  | inr time_last =>
      match player_field player "time_start" with
      | inl e => inl e
      | inr time_start =>
          match player_field player "time_lived" with
          | inl e => inl e
          | inr time_lived =>
              inr [ Row (translate V "nyaa.player_info.last_active") (formatDate V time_last);
                    Row (translate V "nyaa.player_info.first_login") (formatDate V time_start);
                    Row (translate V "nyaa.player_info.total_online")
                        (match time_lived with
                         | Some v => if truthy v then CellText (formatOnline V v)
                                     else CellRaw (Some JNull)
                         | None => CellRaw (Some JNull)
                         end) ]
          end
      end
  end.

(** ** Further vocabulary *)

(** The callers of the concurrent model that have passed the gate: each
    has issued its request. *)
Definition past_gate (c : Concurrent.caller) : bool :=
  match c with
  | Concurrent.InFlight _ | Concurrent.Returned _ | Concurrent.Thrown _ => true
  | _ => false
  end.

(** The callers of a list that satisfy [f]. *)
Definition tally (f : Concurrent.caller -> bool) (l : list Concurrent.caller) : nat :=
  List.length (List.filter f l).

(** How a call leaves the gate: as it found it, or with an unlock timer
    pending. *)
Definition gate_after (w w' : world) : Prop :=
  same_gate w w' \/ timers w' <> [].

(** What [createPlayerData] may write: the cache file, and the directory
    of the player with the directories on the way to it. *)
Definition untouched_elsewhere (E : env) (uuid : string) (w w' : world) : Prop :=
  forall p, p <> cachefile_of E uuid -> ~ In p (dir_chain (playerpath_of E uuid)) ->
            files w' !! p = files w !! p.

(** ** A concrete installation

    One player on a server whose configuration names every directory,
    used to run the pipeline on concrete inputs. *)

Module Sample.

Definition uuid : string := "069a79f4-44e9-4726-a5be-fca90e38aaf5".
Definition uuid_short : string := "069a79f444e94726a5befca90e38aaf5".

Definition conf (ratelimit : Z) : config :=
  Config "playerdata" (Some "stats") (Some "advancements") "out" ratelimit.

(** The service lists the names out of order. *)
Definition history : list name_entry :=
  [ NameEntry "first" None;
    NameEntry "third" (Some 1500000000000);
    NameEntry "second" (Some 1400000000000) ].

Definition service (res : http_result) : string -> Z -> http_result * nat :=
  fun _ _ => (res, 120%nat).

Definition environment (ratelimit : Z) (res : http_result) : env :=
  Env (conf ratelimit) (service res) (fun j => JObj (own_props j)) (fun _ => "Steve").

(** The usual environment: a limit of one second, a service that
    answers. *)
Definition E : env := environment 1 (HttpOk (Some history)).

Definition statistics : json :=
  JObj {[ "stat.jump" := JNum 12%float ]}.

Definition player (ticks : option Z) : nbt_player :=
  NbtPlayer ticks (Some 1400000000000) (Some 1600000000000).

Definition statsfile : string := "stats/069a79f4-44e9-4726-a5be-fca90e38aaf5.json".
Definition advancementsfile : string :=
  "advancements/069a79f4-44e9-4726-a5be-fca90e38aaf5.json".
Definition datafile : string := "playerdata/069a79f4-44e9-4726-a5be-fca90e38aaf5.dat".
Definition playerpath : string := "out/069a79f444e94726a5befca90e38aaf5".
Definition cachefile : string := "out/069a79f444e94726a5befca90e38aaf5/stats.json".
Definition avatarfile : string := "out/069a79f444e94726a5befca90e38aaf5/avatar.png".
Definition bodyfile : string := "out/069a79f444e94726a5befca90e38aaf5/body.png".

(** The save of the server: statistics, advancements and player file. *)
Definition save (ticks : option Z) : gmap string file :=
  <[statsfile := FileJson statistics]>
    (<[advancementsfile := FileJson (JObj ∅)]>
       {[ datafile := FileNbt (player ticks) ]}).

Definition fresh (fs : gmap string file) : world := World false [] 0 fs [].

(** A snapshot as an earlier run cached it, with the ban flag it was
    given then. *)
Definition cached (banned : bool) : json :=
  JObj (list_to_map
    [ ("stats", JObj {[ "stat.jump" := JNum 12%float ]});
      ("stats_source", statistics);
      ("advancements", JObj ∅);
      ("data", JObj (list_to_map
         [ ("playername", JStr "third");
           ("uuid", JStr uuid);
           ("banned", JBool banned) ])) ]).

End Sample.

(** ** Further concrete inputs *)

Module Sample2.

(** A view that leaves labels untranslated. *)
Definition view : view_env :=
  ViewEnv (fun key => key) (fun _ => "2020-09-13") (fun _ => "1 hour").

(** A ban list with two entries, the second without a uuid. *)
Definition banlist : json :=
  JArr [ JObj {[ "uuid" := JStr Sample.uuid ]}; JObj {[ "name" := JStr "Herobrine" ]} ].

End Sample2.

(** * Properties *)

Local Open Scope list_scope.

(** ** The uuid validator *)

Module UuidRegexFacts.
Import UuidRegex.

Lemma mem_In l c : mem l c = true <-> In c (list_ascii_of_string l).
Proof.
  unfold mem. rewrite existsb_exists. split.
  - intros (x & Hx & Heq). apply Ascii.eqb_eq in Heq. now subst.
  - intros H. exists c. split; [exact H | apply Ascii.eqb_refl].
Qed.

Ltac all_chars c :=
  destruct c as [[] [] [] [] [] [] [] []]; vm_compute; reflexivity.

Lemma hex_class c : class_test_i hex c = mem "0123456789abcdefABCDEF" c.
Proof. all_chars c. Qed.

Lemma version_class c : class_test_i [CRange "1" "5"] c = mem "12345" c.
Proof. all_chars c. Qed.

Lemma variant_class c :
  class_test_i [CChar "8"; CChar "9"; CChar "a"; CChar "b"] c = mem "89abAB" c.
Proof. all_chars c. Qed.

Lemma dash_class c : class_test_i [CChar "-"] c = Ascii.eqb c "-".
Proof. all_chars c. Qed.

(** [match_count] succeeds exactly on a prefix of [n] characters of the
    class. *)
Lemma match_count_spec cls n s rest :
  match_count cls n s = Some rest <->
  exists pre, s = pre ++ rest /\ List.length pre = n
              /\ Forall (fun c => class_test_i cls c = true) pre.
Proof.
  revert s. induction n as [|n IH]; intros s; simpl.
  - split.
    + intros [= ->]. exists []. repeat split; constructor.
    + intros (pre & -> & Hlen & _). destruct pre; [reflexivity | discriminate].
  - destruct s as [|c s].
    + split; [discriminate|].
      intros (pre & Hs & Hlen & _). destruct pre; discriminate.
    + destruct (class_test_i cls c) eqn:Hc.
      * rewrite IH. split.
        -- intros (pre & -> & Hlen & Hall). exists (c :: pre).
           repeat split; simpl; auto.
        -- intros (pre & Hs & Hlen & Hall).
           destruct pre as [|c' pre]; [discriminate|].
           injection Hs as <- ->. injection Hlen as Hlen.
           inversion Hall; subst. exists pre. auto.
      * split; [discriminate|].
        intros (pre & Hs & Hlen & Hall).
        destruct pre as [|c' pre]; [discriminate|].
        injection Hs as <- ->. inversion Hall; subst. congruence.
Qed.

Lemma hex_Forall l :
  Forall (fun c => class_test_i hex c = true) l <-> Forall is_hex l.
Proof.
  apply Forall_iff. intros c. rewrite hex_class. apply mem_In.
Qed.

Lemma single_spec cls s rest :
  match_count cls 1 s = Some rest <->
  exists c, s = c :: rest /\ class_test_i cls c = true.
Proof.
  simpl. destruct s as [|c s].
  - split; [discriminate | intros (c & H & _); discriminate].
  - destruct (class_test_i cls c) eqn:Hc.
    + split.
      * intros [= ->]. eauto.
      * intros (c' & [= <- ->] & _). reflexivity.
    + split; [discriminate|]. intros (c' & [= <- ->] & H). congruence.
Qed.

Lemma dash_spec s rest :
  match_count [CChar "-"] 1 s = Some rest <-> s = "-"%char :: rest.
Proof.
  rewrite single_spec. split.
  - intros (c & -> & H). rewrite dash_class in H.
    apply Ascii.eqb_eq in H. now subst.
  - intros ->. exists "-"%char. split; reflexivity.
Qed.

End UuidRegexFacts.

Lemma match_seq_cons p r s out :
  UuidRegex.match_seq (p :: r) s = Some out <->
  exists mid, UuidRegex.match_count (UuidRegex.p_class p) (UuidRegex.p_count p) s = Some mid
              /\ UuidRegex.match_seq r mid = Some out.
Proof.
  simpl. destruct (UuidRegex.match_count _ _ s) as [mid|].
  - split; [eauto | intros (m & [= ->] & H); exact H].
  - split; [discriminate | intros (m & H & _); discriminate].
Qed.

Lemma match_count_app cls n pre rest :
  List.length pre = n ->
  Forall (fun c => UuidRegex.class_test_i cls c = true) pre ->
  UuidRegex.match_count cls n (pre ++ rest) = Some rest.
Proof.
  intros Hn H. apply UuidRegexFacts.match_count_spec. exists pre. auto.
Qed.

Lemma match_single cls c rest :
  UuidRegex.class_test_i cls c = true ->
  UuidRegex.match_count cls 1 (c :: rest) = Some rest.
Proof. intros H. simpl. now rewrite H. Qed.

(** C9: the regular expression of [getAllPlayers] accepts a string if and
    only if it is in the canonical 8-4-4-4-12 hexadecimal form, with the
    version nibble among 1..5 and the variant nibble among 8, 9, a, b, in
    either case; every other string is rejected.  Hence [getAllPlayers]
    returns exactly the base names of the listing that are in that form. *)
Theorem uuid_validator_exact :
  (forall s : string,
     UuidRegex.test UuidRegex.uuid_regex s = true <-> UuidRegex.canonical_uuid s)
  /\ (forall (listing : list string) (u : string),
        In u (UuidRegex.getAllPlayers listing) <->
        UuidRegex.canonical_uuid u
        /\ exists f, In f listing /\ basename_ext f ".dat" = u).
Proof.
  assert (Hiff : forall s : string,
            UuidRegex.test UuidRegex.uuid_regex s = true <-> UuidRegex.canonical_uuid s).
  2:{ split; [exact Hiff|]. intros listing u. unfold UuidRegex.getAllPlayers.
      rewrite List.filter_In, Hiff, List.in_map_iff. split.
      - intros ((f & Hf & Hin) & Hc). split; [exact Hc|]. now exists f.
      - intros (Hc & f & Hin & Hf). split; [|exact Hc]. now exists f. }
  intros s. unfold UuidRegex.test, UuidRegex.canonical_uuid. split.
  - intros H.
    destruct (UuidRegex.match_seq UuidRegex.uuid_regex (list_ascii_of_string s))
      as [[|]|] eqn:Hm; try discriminate. clear H.
    unfold UuidRegex.uuid_regex in Hm.
    apply match_seq_cons in Hm as (r1 & H1 & Hm).
    apply match_seq_cons in Hm as (r2 & H2 & Hm).
    apply match_seq_cons in Hm as (r3 & H3 & Hm).
    apply match_seq_cons in Hm as (r4 & H4 & Hm).
    apply match_seq_cons in Hm as (r5 & H5 & Hm).
    apply match_seq_cons in Hm as (r6 & H6 & Hm).
    apply match_seq_cons in Hm as (r7 & H7 & Hm).
    apply match_seq_cons in Hm as (r8 & H8 & Hm).
    apply match_seq_cons in Hm as (r9 & H9 & Hm).
    apply match_seq_cons in Hm as (r10 & H10 & Hm).
    apply match_seq_cons in Hm as (r11 & H11 & Hm).
    simpl in Hm. injection Hm as ->.
    unfold UuidRegex.dash in *.
    cbn [UuidRegex.p_class UuidRegex.p_count] in *.
    apply UuidRegexFacts.match_count_spec in H1 as (g1 & E1 & L1 & F1).
    apply UuidRegexFacts.dash_spec in H2.
    apply UuidRegexFacts.match_count_spec in H3 as (g2 & E3 & L3 & F3).
    apply UuidRegexFacts.dash_spec in H4.
    apply UuidRegexFacts.single_spec in H5 as (v & E5 & Hv).
    apply UuidRegexFacts.match_count_spec in H6 as (g3 & E6 & L6 & F6).
    apply UuidRegexFacts.dash_spec in H7.
    apply UuidRegexFacts.single_spec in H8 as (r & E8 & Hr).
    apply UuidRegexFacts.match_count_spec in H9 as (g4 & E9 & L9 & F9).
    apply UuidRegexFacts.dash_spec in H10.
    apply UuidRegexFacts.match_count_spec in H11 as (g5 & E11 & L11 & F11).
    rewrite UuidRegexFacts.version_class in Hv. rewrite UuidRegexFacts.variant_class in Hr.
    apply UuidRegexFacts.mem_In in Hv. apply UuidRegexFacts.mem_In in Hr.
    apply UuidRegexFacts.hex_Forall in F1, F3, F6, F9, F11.
    exists g1, g2, v, g3, r, g4, g5.
    subst. rewrite E1. rewrite app_nil_r.
    repeat split; auto.
  - intros (g1 & g2 & v & g3 & r & g4 & g5 & Hs & L1 & L2 & L3 & L4 & L5
            & F1 & F2 & F3 & F4 & F5 & Hv & Hr).
    rewrite Hs. unfold UuidRegex.uuid_regex.
    apply UuidRegexFacts.hex_Forall in F1, F2, F3, F4, F5.
    apply UuidRegexFacts.mem_In in Hv. rewrite <- UuidRegexFacts.version_class in Hv.
    apply UuidRegexFacts.mem_In in Hr. rewrite <- UuidRegexFacts.variant_class in Hr.
    cbn [UuidRegex.match_seq UuidRegex.p_class UuidRegex.p_count UuidRegex.dash app].
    rewrite (match_count_app _ _ g1) by assumption.
    rewrite match_single by apply UuidRegexFacts.dash_class.
    rewrite (match_count_app _ _ g2) by assumption.
    rewrite match_single by apply UuidRegexFacts.dash_class.
    rewrite match_single by assumption.
    rewrite (match_count_app _ _ g3) by assumption.
    rewrite match_single by apply UuidRegexFacts.dash_class.
    rewrite match_single by assumption.
    rewrite (match_count_app _ _ g4) by assumption.
    rewrite match_single by apply UuidRegexFacts.dash_class.
    rewrite <- (app_nil_r g5), (match_count_app _ _ g5) by assumption.
    reflexivity.
Qed.

(** ** Sorting of the name history *)

Section SortFacts.
Context {A : Type} (cmp : A -> A -> Z).

Lemma js_insert_perm x l : Permutation (js_insert cmp x l) (x :: l).
Proof.
  induction l as [|y l IH]; simpl.
  - reflexivity.
  - destruct (cmp x y <=? 0); [reflexivity|].
    rewrite IH. apply perm_swap.
Qed.

Lemma js_sort_perm l : Permutation (js_sort cmp l) l.
Proof.
  induction l as [|x l IH]; simpl.
  - reflexivity.
  - rewrite js_insert_perm. now constructor.
Qed.

Lemma js_sort_length l : List.length (js_sort cmp l) = List.length l.
Proof. apply Permutation_length, js_sort_perm. Qed.

(** The comparator is a difference of keys. *)
Variable key : A -> Z.
Hypothesis cmp_key : forall a b, cmp a b = key b - key a.

Lemma js_insert_hd x l z :
  descending key z x -> HdRel (descending key) z l -> HdRel (descending key) z (js_insert cmp x l).
Proof.
  intros Hzx Hl. destruct l as [|y l]; simpl.
  - now constructor.
  - destruct (cmp x y <=? 0); constructor; auto.
    now inversion Hl.
Qed.

Lemma js_insert_sorted x l :
  Sorted (descending key) l -> Sorted (descending key) (js_insert cmp x l).
Proof.
  induction 1 as [|y l Hs IH Hhd]; simpl.
  - repeat constructor.
  - destruct (cmp x y <=? 0) eqn:Hc.
    + constructor; [now constructor|]. constructor.
      unfold descending. rewrite cmp_key in Hc. lia.
    + constructor; [exact IH|]. apply js_insert_hd; [|exact Hhd].
      unfold descending. rewrite cmp_key in Hc. lia.
Qed.

Lemma js_sort_sorted l : Sorted (descending key) (js_sort cmp l).
Proof.
  induction l as [|x l IH]; simpl; [constructor | now apply js_insert_sorted].
Qed.

Lemma js_sort_strongly_sorted l : StronglySorted (descending key) (js_sort cmp l).
Proof.
  apply Sorted_StronglySorted; [|apply js_sort_sorted].
  intros a b c. unfold descending. lia.
Qed.

End SortFacts.

Lemma history_cmp_key a b : history_cmp a b = changed_or_0 b - changed_or_0 a.
Proof. reflexivity. Qed.

(** An entry without [changedToAt], or with the timestamp 0, has key 0. *)
Lemma changed_or_0_missing e : changedToAt e = None -> changed_or_0 e = 0.
Proof. unfold changed_or_0. now intros ->. Qed.

Lemma changed_or_0_present e t :
  changedToAt e = Some t -> changed_or_0 e = double_value t.
Proof.
  unfold changed_or_0. intros ->. destruct (Z.eqb_spec (double_value t) 0); congruence.
Qed.

(** ** The gate of [getMojangAPI] *)

Lemma same_gate_refl w : same_gate w w.
Proof. repeat split. Qed.

Lemma same_gate_emit e w : same_gate w (emit e w).
Proof. repeat split. Qed.

Lemma same_gate_live E w w' : same_gate w w' -> gate_live E w -> gate_live E w'.
Proof.
  intros (Ha & Ht & _) H. unfold gate_live, must_wait in *.
  rewrite Ha, Ht. exact H.
Qed.

Lemma fire_due_files w : files (fire_due w) = files w.
Proof. unfold fire_due. now destruct (existsb _ _). Qed.

Lemma fire_due_trace w : trace (fire_due w) = trace w.
Proof. unfold fire_due. now destruct (existsb _ _). Qed.

Lemma fire_due_clock w : clock (fire_due w) = clock w.
Proof. unfold fire_due. now destruct (existsb _ _). Qed.

Lemma advance_files d w : files (advance d w) = files w.
Proof. unfold advance. now rewrite fire_due_files. Qed.

Lemma advance_trace d w : trace (advance d w) = trace w.
Proof. unfold advance. now rewrite fire_due_trace. Qed.

Lemma advance_clock d w : clock (advance d w) = clock w + d.
Proof. unfold advance. now rewrite fire_due_clock. Qed.

Lemma getMojangAPI_open E fuel url w :
  must_wait E w = false ->
  getMojangAPI E (S fuel) url w = Some (api_pass E url w).
Proof.
  intros H. simpl. rewrite H. unfold api_pass.
  change (clock (api_acquire url w)) with (clock w).
  now destruct (http E url (clock w)).
Qed.

Lemma getMojangAPI_locked E fuel url w :
  must_wait E w = true ->
  getMojangAPI E (S fuel) url w = getMojangAPI E fuel url (advance 10 w).
Proof.
  intros H. simpl. rewrite H. reflexivity.
Qed.

(** Polling ends: with a timer due within [k] polls, [k + 2] units of
    fuel are enough, and the call passes the gate in a world that differs
    from the first only in the clock, the flag and the timers. *)
Lemma getMojangAPI_polls E url t k : forall w,
  In t (timers w) ->
  timer_due t <= clock w + 10 * Z.of_nat k ->
  exists w0, files w0 = files w /\ trace w0 = trace w /\ clock w <= clock w0
    /\ must_wait E w0 = false
    /\ forall fuel, (k + 2 <= fuel)%nat ->
         getMojangAPI E fuel url w = Some (api_pass E url w0).
Proof.
  induction k as [|k IH]; intros w Hin Hdue.
  - destruct (must_wait E w) eqn:Hw.
    + assert (Hfire : existsb (is_due (clock w + 10)) (timers w) = true).
      { apply existsb_exists. exists t. split; [exact Hin|].
        unfold is_due. apply Z.leb_le. lia. }
      assert (Hopen : must_wait E (advance 10 w) = false).
      { unfold must_wait, advance, fire_due. simpl. rewrite Hfire. simpl.
        apply andb_false_r. }
      exists (advance 10 w). rewrite advance_files, advance_trace, advance_clock.
      repeat split; [lia | exact Hopen |].
      intros fuel Hf. destruct fuel as [|[|fuel]]; try lia.
      rewrite getMojangAPI_locked by exact Hw.
      now apply getMojangAPI_open.
    + exists w. repeat split; [lia | exact Hw |].
      intros fuel Hf. destruct fuel as [|fuel]; try lia.
      now apply getMojangAPI_open.
  - destruct (must_wait E w) eqn:Hw.
    + destruct (existsb (is_due (clock w + 10)) (timers w)) eqn:Hfire.
      * assert (Hopen : must_wait E (advance 10 w) = false).
        { unfold must_wait, advance, fire_due. simpl. rewrite Hfire. simpl.
          apply andb_false_r. }
        exists (advance 10 w). rewrite advance_files, advance_trace, advance_clock.
        repeat split; [lia | exact Hopen |].
        intros fuel Hf. destruct fuel as [|[|fuel]]; try lia.
        rewrite getMojangAPI_locked by exact Hw.
        now apply getMojangAPI_open.
      * assert (Hadv : advance 10 w = set_clock (clock w + 10) w).
        { unfold advance, fire_due. simpl. now rewrite Hfire. }
        destruct (IH (advance 10 w)) as (w0 & Hf0 & Ht0 & Hc0 & Hopen & Hrun).
        { rewrite Hadv. exact Hin. }
        { rewrite Hadv. simpl. lia. }
        exists w0. rewrite Hadv in Hf0, Ht0, Hc0. simpl in Hf0, Ht0, Hc0.
        repeat split; [exact Hf0 | exact Ht0 | lia | exact Hopen |].
        intros fuel Hf. destruct fuel as [|fuel]; try lia.
        rewrite getMojangAPI_locked by exact Hw.
        apply Hrun. lia.
    + exists w. repeat split; [lia | exact Hw |].
      intros fuel Hf. destruct fuel as [|fuel]; try lia.
      now apply getMojangAPI_open.
Qed.

(** [getMojangAPI] returns whenever the gate is live. *)
Lemma getMojangAPI_runs E url w :
  gate_live E w ->
  exists n w0, files w0 = files w /\ trace w0 = trace w /\ clock w <= clock w0
    /\ must_wait E w0 = false
    /\ forall fuel, (n <= fuel)%nat ->
         getMojangAPI E fuel url w = Some (api_pass E url w0).
Proof.
  intros Hlive. destruct (must_wait E w) eqn:Hw.
  - specialize (Hlive Hw).
    destruct (timers w) as [|t ts] eqn:Hts; [congruence|].
    destruct (getMojangAPI_polls E url t (Z.to_nat (timer_due t - clock w)) w)
      as (w0 & H).
    + rewrite Hts. now left.
    + lia.
    + exists (Z.to_nat (timer_due t - clock w) + 2)%nat, w0. exact H.
  - exists 1%nat, w. repeat split; [lia | exact Hw |].
    intros fuel Hf. destruct fuel as [|fuel]; try lia.
    now apply getMojangAPI_open.
Qed.

Lemma requests_emit_request url w : requests (emit (EvRequest url) w) = requests w ++ [url].
Proof. reflexivity. Qed.

Lemma requests_emit_log a b c d w : requests (emit (EvLog a b c d) w) = requests w.
Proof. reflexivity. Qed.

Lemma requests_same_trace w w' : trace w' = trace w -> requests w' = requests w.
Proof. unfold requests. now intros ->. Qed.

Lemma downloads_same_trace w w' : trace w' = trace w -> downloads w' = downloads w.
Proof. unfold downloads. now intros ->. Qed.

(** A timer set now with delay [d] has fired once [node_delay d]
    milliseconds have passed, and the flag is then clear. *)
Lemma unlock_fires d ts w :
  timers w = Timer (clock w) d :: ts ->
  apiLimited (advance (node_delay d) w) = false.
Proof.
  intros Ht. unfold advance, fire_due. simpl. rewrite Ht. simpl.
  unfold is_due at 1. unfold timer_due. simpl.
  rewrite (proj2 (Z.leb_le _ _)) by lia. reflexivity.
Qed.

(** What passing the gate leaves behind. *)
Lemma api_pass_spec E url w0 :
  exists ts,
    requests (fst (api_pass E url w0)) = requests w0 ++ [url]
    /\ files (fst (api_pass E url w0)) = files w0
    /\ downloads (fst (api_pass E url w0)) = downloads w0
    /\ match fst (http E url (clock w0)) with
       | HttpOk body =>
           snd (api_pass E url w0) = Resolved body
           /\ timers (fst (api_pass E url w0))
              = Timer (clock (fst (api_pass E url w0)))
                      (api_ratelimit (cfg E) * 1 * base_delay) :: ts
       | HttpFail =>
           (exists e, snd (api_pass E url w0) = Rejected e)
           /\ timers (fst (api_pass E url w0))
              = Timer (clock (fst (api_pass E url w0)))
                      (api_ratelimit (cfg E) * 3 * base_delay) :: ts
       end.
Proof.
  unfold api_pass.
  destruct (http E url (clock w0)) as [res lat]. simpl.
  set (w1 := advance (Z.of_nat lat) (api_acquire url w0)).
  assert (Htr : trace w1 = EvRequest url :: EvLog "MojangAPI" "info" "REQUEST" url :: trace w0).
  { unfold w1. now rewrite advance_trace. }
  assert (Hfs : files w1 = files w0).
  { unfold w1. now rewrite advance_files. }
  exists (timers w1).
  destruct res as [body|]; simpl.
  - repeat split; try assumption.
    + unfold requests. simpl. now rewrite Htr.
    + unfold downloads. simpl. now rewrite Htr.
    + unfold setTimeout_unlock, base_delay. simpl.
      now replace (api_ratelimit (cfg E) * 1 * 1000) with (api_ratelimit (cfg E) * 1000) by lia.
  - repeat split; try assumption.
    + unfold requests. simpl. now rewrite Htr.
    + unfold downloads. simpl. now rewrite Htr.
    + eauto.
    + unfold setTimeout_unlock, base_delay. simpl.
      now replace (api_ratelimit (cfg E) * 3 * 1000) with (api_ratelimit (cfg E) * 3000) by lia.
Qed.

(** C5: a call of [getMojangAPI] that finds the gate live returns.  After
    a successful lookup the unlock of the flag is scheduled
    [ratelimit * 1] base units ahead and the body is returned; after a
    failed lookup it is scheduled [ratelimit * 3] base units ahead and the
    error is thrown, the request having been issued once; either timer
    clears the flag when it fires.  With a rate limit of zero the call
    passes the gate at once, whatever the flag. *)
Theorem mojang_api_unlock_schedule (E : env) (url : string) (w : world) :
  gate_live E w ->
  (api_ratelimit (cfg E) = 0 ->
   forall fuel, getMojangAPI E (S fuel) url w = Some (api_pass E url w))
  /\ exists n w0,
       clock w <= clock w0 /\
       forall fuel, (n <= fuel)%nat ->
       exists w' out d ts,
         getMojangAPI E fuel url w = Some (w', out)
         /\ requests w' = requests w ++ [url]
         /\ timers w' = Timer (clock w') d :: ts
         /\ apiLimited (advance (node_delay d) w') = false
         /\ match fst (http E url (clock w0)) with
            | HttpOk body =>
                out = Resolved body /\ d = api_ratelimit (cfg E) * 1 * base_delay
            | HttpFail =>
                (exists e, out = Rejected e) /\ d = api_ratelimit (cfg E) * 3 * base_delay
            end.
Proof.
  intros Hlive. split.
  - intros H0 fuel. apply getMojangAPI_open.
    unfold must_wait. rewrite H0. reflexivity.
  - destruct (getMojangAPI_runs E url w Hlive) as (n & w0 & Hf & Ht & Hc & _ & Hrun).
    exists n, w0. split; [exact Hc|]. intros fuel Hfuel.
    rewrite (Hrun fuel Hfuel).
    destruct (api_pass_spec E url w0) as (ts & Hreq & _ & _ & Hres).
    destruct (api_pass E url w0) as [w' out]. simpl in *.
    rewrite (requests_same_trace w w0 Ht) in Hreq.
    destruct (fst (http E url (clock w0))) as [body|].
    + destruct Hres as (Hout & Htim).
      exists w', out, (api_ratelimit (cfg E) * 1 * base_delay), ts.
      repeat split; auto. now apply (unlock_fires _ ts).
    + destruct Hres as (Hout & Htim).
      exists w', out, (api_ratelimit (cfg E) * 3 * base_delay), ts.
      repeat split; auto. now apply (unlock_fires _ ts).
Qed.

(** The claim at work: the flag is set and a timer is pending, the call
    polls until the timer fires and then issues its request. *)
Lemma mojang_api_unlock_schedule_witness :
  let w := World true [Timer 0 1000] 0 ∅ [] in
  gate_live Sample.E w
  /\ exists n w0, clock w <= clock w0 /\ forall fuel, (n <= fuel)%nat ->
       exists w' out d ts,
         getMojangAPI Sample.E fuel "u" w = Some (w', out)
         /\ requests w' = requests w ++ ["u"]
         /\ timers w' = Timer (clock w') d :: ts
         /\ apiLimited (advance (node_delay d) w') = false
         /\ match fst (http Sample.E "u" (clock w0)) with
            | HttpOk body => out = Resolved body /\ d = 1 * 1 * base_delay
            | HttpFail => (exists e, out = Rejected e) /\ d = 1 * 3 * base_delay
            end.
Proof.
  intros w.
  assert (H : gate_live Sample.E w) by (intros _; discriminate).
  split; [exact H|].
  exact (proj2 (mojang_api_unlock_schedule Sample.E "u" w H)).
Defined.

(** ** [getNameHistory] and [getPlayerData] *)

Lemma getNameHistory_pass E fuel uuid w w0 :
  getMojangAPI E fuel (apiNameHistory uuid) w = Some (api_pass E (apiNameHistory uuid) w0) ->
  exists w', getNameHistory E fuel uuid w
             = Some (w', Resolved (history_of (fst (http E (apiNameHistory uuid) (clock w0)))))
    /\ files w' = files w0 /\ downloads w' = downloads w0
    /\ requests w' = requests w0 ++ [apiNameHistory uuid].
Proof.
  intros Hrun. unfold getNameHistory, bind, try_catch. rewrite Hrun.
  destruct (api_pass_spec E (apiNameHistory uuid) w0) as (ts & Hreq & Hfs & Hdl & Hres).
  destruct (api_pass E (apiNameHistory uuid) w0) as [w' out]. simpl in *.
  exists w'.
  destruct (fst (http E (apiNameHistory uuid) (clock w0))) as [[h|]|]; simpl.
  - destruct Hres as (-> & _). auto.
  - destruct Hres as (-> & _). auto.
  - destruct Hres as ((e & ->) & _). auto.
Qed.

(** [getNameHistory] never rejects: it returns the sorted history or
    [null]. *)
Lemma getNameHistory_runs E uuid w :
  gate_live E w ->
  exists n w0, clock w <= clock w0 /\
    forall fuel, (n <= fuel)%nat ->
    exists w', getNameHistory E fuel uuid w
               = Some (w', Resolved (history_of (fst (http E (apiNameHistory uuid) (clock w0)))))
      /\ files w' = files w /\ downloads w' = downloads w
      /\ requests w' = requests w ++ [apiNameHistory uuid].
Proof.
  intros Hlive.
  destruct (getMojangAPI_runs E (apiNameHistory uuid) w Hlive)
    as (n & w0 & Hf & Ht & Hc & _ & Hrun).
  exists n, w0. split; [exact Hc|]. intros fuel Hfuel.
  destruct (getNameHistory_pass E fuel uuid w w0 (Hrun fuel Hfuel))
    as (w' & Hget & Hfs & Hdl & Hreq).
  exists w'. rewrite Hget, Hfs, Hdl, Hreq, Hf.
  rewrite (downloads_same_trace w w0 Ht), (requests_same_trace w w0 Ht). auto.
Qed.

(** Whatever [getNameHistory] returns is the sorted answer of the
    service. *)
Lemma getNameHistory_result E fuel uuid w w' out :
  getNameHistory E fuel uuid w = Some (w', out) ->
  exists t, out = Resolved (history_of (fst (http E (apiNameHistory uuid) t))).
Proof.
  intros Hget. unfold getNameHistory, bind, try_catch in Hget.
  assert (Hshape : forall r, getMojangAPI E fuel (apiNameHistory uuid) w = Some r ->
            exists w0, r = api_pass E (apiNameHistory uuid) w0).
  { clear. revert w. induction fuel as [|fuel IH]; intros w r; simpl; [discriminate|].
    destruct (must_wait E w).
    - unfold bind, delay, effect. apply IH.
    - unfold api_pass.
      change (clock (api_acquire (apiNameHistory uuid) w)) with (clock w).
      destruct (http E (apiNameHistory uuid) (clock w)) as [res lat] eqn:Hh.
      intros [= <-]. exists w. now rewrite Hh. }
  destruct (getMojangAPI E fuel (apiNameHistory uuid) w) as [r|] eqn:Hr; [|discriminate].
  destruct (Hshape r eq_refl) as (w0 & ->).
  destruct (api_pass_spec E (apiNameHistory uuid) w0) as (ts & _ & _ & _ & Hres).
  destruct (api_pass E (apiNameHistory uuid) w0) as [w1 o]. simpl in *.
  exists (clock w0).
  destruct (fst (http E (apiNameHistory uuid) (clock w0))) as [[h|]|]; simpl.
  - destruct Hres as (-> & _). simpl in Hget. now injection Hget as <- <-.
  - destruct Hres as (-> & _). simpl in Hget. now injection Hget as <- <-.
  - destruct Hres as ((e & ->) & _). simpl in Hget. now injection Hget as <- <-.
Qed.

(** The shape of the object [getPlayerData] resolves with. *)
Lemma getPlayerData_resolved E fuel uuid w w' d :
  getPlayerData E fuel uuid w = Some (w', Resolved d) ->
  exists n timeStart timeLast first rest t,
    load_nbt w (path_join (render_playerdata (cfg E)) (uuid ++ ".dat")%string) = Some n
    /\ history_of (fst (http E (apiNameHistory (strip_dashes uuid)) t)) = Some (first :: rest)
    /\ d = pdata_of n timeStart timeLast first (first :: rest) uuid (clock w').
Proof.
  unfold getPlayerData.
  destruct (load_nbt w _) as [n|] eqn:Hn; [|discriminate].
  unfold bind, try_catch.
  destruct (getNameHistory E fuel (strip_dashes uuid) _) as [[w1 o]|] eqn:Hh; [|discriminate].
  destruct (getNameHistory_result _ _ _ _ _ _ Hh) as (t & ->).
  destruct (history_of _) as [[|first rest]|] eqn:Hhist; try discriminate.
  destruct (firstPlayed n) as [ts|]; [|discriminate].
  destruct (lastPlayed n) as [tl|]; [|discriminate].
  intros [= <- <-].
  exists n, ts, tl, first, rest, t. auto.
Qed.

Lemma pdata_of_names n ts tl first h uuid now :
  js_get (pdata_of n ts tl first h uuid now) "names" = Some (JArr (map entry_json h)).
Proof. reflexivity. Qed.

Lemma pdata_of_playername n ts tl first h uuid now :
  js_get (pdata_of n ts tl first h uuid now) "playername" = Some (JStr (name first)).
Proof. reflexivity. Qed.

Lemma pdata_of_time_lived n ts tl first h uuid now :
  js_get (pdata_of n ts tl first h uuid now) "time_lived" = Some (lived_of n).
Proof. reflexivity. Qed.

Lemma history_of_sorted res h :
  history_of res = Some h ->
  StronglySorted (descending changed_or_0) h
  /\ exists body, res = HttpOk (Some body) /\ Permutation h body.
Proof.
  destruct res as [[body|]|]; simpl; try discriminate.
  intros [= <-]. split.
  - apply js_sort_strongly_sorted. apply history_cmp_key.
  - exists body. split; [reflexivity | apply js_sort_perm].
Qed.

Lemma strongly_sorted_later {A} (R : A -> A -> Prop) l1 a l2 b l3 :
  StronglySorted R (l1 ++ a :: l2 ++ b :: l3) -> R a b.
Proof.
  induction l1 as [|x l1 IH]; simpl; intros H.
  - inversion H as [|? ? _ Hall]; subst.
    rewrite List.Forall_forall in Hall. apply Hall.
    apply in_or_app. right. now left.
  - inversion H; subst. auto.
Qed.

Lemma changed_or_0_stamp e : changed_or_0 e = stamp e.
Proof.
  unfold changed_or_0, stamp. destruct (changedToAt e) as [t|]; [|reflexivity].
  destruct (Z.eqb_spec (double_value t) 0) as [H0|_]; [now rewrite H0 | reflexivity].
Qed.

Lemma history_cmp_stamp a b : history_cmp a b = stamp b - stamp a.
Proof. unfold history_cmp. now rewrite !changed_or_0_stamp. Qed.

(** The history made of a body: the same entries, newest first. *)
Lemma sorted_body body :
  Permutation (js_sort history_cmp body) body
  /\ StronglySorted (descending stamp) (js_sort history_cmp body)
  /\ (forall l1 a l2 b l3, js_sort history_cmp body = l1 ++ a :: l2 ++ b :: l3 ->
       changedToAt a = None -> stamp b <= 0)
  /\ (Forall (fun e => 0 <= stamp e) body ->
      forall l1 a l2 b l3, js_sort history_cmp body = l1 ++ a :: l2 ++ b :: l3 ->
      changedToAt a = None -> stamp b = 0).
Proof.
  pose proof (js_sort_perm history_cmp body) as Hperm.
  pose proof (js_sort_strongly_sorted history_cmp stamp history_cmp_stamp body) as Hs.
  assert (Hlater : forall l1 a l2 b l3,
            js_sort history_cmp body = l1 ++ a :: l2 ++ b :: l3 ->
            changedToAt a = None -> stamp b <= 0).
  { intros l1 a l2 b l3 Heq Ha. rewrite Heq in Hs.
    apply strongly_sorted_later in Hs. unfold descending, stamp at 2 in Hs.
    now rewrite Ha in Hs. }
  repeat split; auto.
  intros Hpos l1 a l2 b l3 Heq Ha.
  pose proof (Hlater l1 a l2 b l3 Heq Ha) as Hle.
  assert (Hin : In b body).
  { apply (Permutation_in b Hperm). rewrite Heq.
    apply in_or_app. right. right. apply in_or_app. right. now left. }
  rewrite List.Forall_forall in Hpos. specialize (Hpos b Hin). lia.
Qed.

(** On the sample installation the names come back most recent first,
    the one without a timestamp last. *)
Example sample_history_sorted :
  history_of (HttpOk (Some Sample.history))
  = Some [ NameEntry "third" (Some 1500000000000);
           NameEntry "second" (Some 1400000000000);
           NameEntry "first" None ].
Proof. reflexivity. Qed.

(** Timestamps are compared as the doubles they were parsed to: 2^53 and
    2^53 + 1 are the same number, and the two entries keep the order the
    service gave them. *)
Example sample_history_doubles :
  history_of (HttpOk (Some [ NameEntry "even" (Some 9007199254740992);
                             NameEntry "odd" (Some 9007199254740993);
                             NameEntry "old" (Some 1400000000000) ]))
  = Some [ NameEntry "even" (Some 9007199254740992);
           NameEntry "odd" (Some 9007199254740993);
           NameEntry "old" (Some 1400000000000) ].
Proof. vm_compute. reflexivity. Qed.

(** ** [time_lived] *)

Lemma ticks_72000 : PrimFloat.div (of_Z 72000) 20%float = 3600%float.
Proof. vm_compute. reflexivity. Qed.

(** C7, as the code has it: in every object [getPlayerData] resolves
    with, [time_lived] is [ticksLived / 20] when the player file carries
    the tag (3600 for 72000 ticks), and is the empty string when it does
    not: the property is present either way. *)
Theorem time_lived_from_ticks (E : env) (fuel : nat) (uuid : string) (w w' : world) (d : json) :
  getPlayerData E fuel uuid w = Some (w', Resolved d) ->
  exists n,
    load_nbt w (path_join (render_playerdata (cfg E)) (uuid ++ ".dat")%string) = Some n
    /\ match ticksLived n with
       | Some t => js_get d "time_lived" = Some (JNum (PrimFloat.div (of_Z t) 20%float))
       | None => js_get d "time_lived" = Some (JStr "")
       end
    /\ (ticksLived n = Some 72000 -> js_get d "time_lived" = Some (JNum 3600%float)).
Proof.
  intros Hd.
  apply getPlayerData_resolved in Hd as (n & ts & tl & first & rest & t & Hn & _ & ->).
  exists n. split; [exact Hn|].
  rewrite pdata_of_time_lived. unfold lived_of. split.
  - now destruct (ticksLived n).
  - intros ->. now rewrite ticks_72000.
Qed.

(** A player who has lived 72000 ticks gets 3600 seconds. *)
Lemma time_lived_from_ticks_witness :
  exists w' d,
    getPlayerData Sample.E 1 Sample.uuid (Sample.fresh (Sample.save (Some 72000)))
    = Some (w', Resolved d)
    /\ js_get d "time_lived" = Some (JNum 3600%float).
Proof.
  destruct (getPlayerData Sample.E 1 Sample.uuid (Sample.fresh (Sample.save (Some 72000))))
    as [[w' [d| |]]|] eqn:Hrun; try (vm_compute in Hrun; discriminate Hrun).
  exists w', d. split; [reflexivity|].
  destruct (time_lived_from_ticks _ _ _ _ _ _ Hrun) as (n & Hn & _ & H72).
  apply H72. vm_compute in Hn. now injection Hn as <-.
Defined.

(** Against C7 as stated: for a player file without [Spigot.ticksLived]
    the snapshot does carry [time_lived], set to the empty string. *)
Lemma time_lived_omitted_counterexample :
  exists w' d,
    getPlayerData Sample.E 1 Sample.uuid (Sample.fresh (Sample.save None))
    = Some (w', Resolved d)
    /\ ticksLived (Sample.player None) = None
    /\ js_get d "time_lived" = Some (JStr "")
    /\ js_get d "time_lived" <> None.
Proof.
  eexists _, _. split; [vm_compute; reflexivity|].
  split; [reflexivity|]. split; [reflexivity | discriminate].
Qed.

(** ** [createPlayerData] *)

Lemma js_and_path p a b : js_and (path_join p a) b = b.
Proof.
  unfold js_and, path_join. now destruct p.
Qed.

Lemma createPlayerData_unfold E fuel uuid banned w :
  createPlayerData E fuel uuid banned w =
  (let* data :=
     (fun w =>
        if existsSync w (cachefile_of E uuid)
        then match read_json w (cachefile_of E uuid) with
             | inr j => Some (w, Resolved j)
             | inl e => Some (w, Rejected e)
             end
        else getPlayerTotalData E fuel uuid w) in
   finish E uuid banned data) w.
Proof.
  unfold createPlayerData, finish, bind.
  fold (playerpath_of E uuid). fold (cachefile_of E uuid).
  destruct (if existsSync w (cachefile_of E uuid) then _ else _) as [[w1 [data|e|]]|];
    try reflexivity.
  unfold bodyfile_of. now rewrite js_and_path.
Qed.

Lemma existsSync_same_files w w' p : files w' = files w -> existsSync w' p = existsSync w p.
Proof. unfold existsSync. now intros ->. Qed.

Lemma read_json_same_files w w' p : files w' = files w -> read_json w' p = read_json w p.
Proof. unfold read_json. now intros ->. Qed.

(** With [body.png] in place, [finish] hands [data] back untouched. *)
Lemma finish_body_present E uuid banned data w :
  existsSync w (bodyfile_of E uuid) = true ->
  finish E uuid banned data w = Some (w, Resolved data).
Proof. unfold finish. now intros ->. Qed.

(** Without [body.png], incomplete data is rejected with no value. *)
Lemma finish_incomplete E uuid banned data w :
  existsSync w (bodyfile_of E uuid) = false ->
  complete data = false ->
  finish E uuid banned data w = Some (w, Rejected ErrUndefined).
Proof. unfold finish. now intros -> ->. Qed.

Lemma dir_blocked_same_files w w' p : files w' = files w -> dir_blocked w' p = dir_blocked w p.
Proof.
  intros Hf. unfold dir_blocked.
  induction (dir_chain p) as [|q l IH]; simpl; [reflexivity|].
  unfold not_a_directory at 1 3. now rewrite Hf, IH.
Qed.

Lemma make_dirs_lookup chain fs p :
  ~ In p chain -> make_dirs chain fs !! p = fs !! p.
Proof.
  revert fs. induction chain as [|q chain IH]; intros fs Hp; simpl; [reflexivity|].
  rewrite IH by (intros Hin; apply Hp; now right).
  destruct (fs !! q); [reflexivity|].
  apply lookup_insert_ne. intros ->. apply Hp. now left.
Qed.

Lemma complete_is_object data :
  complete data = true -> exists m, data = JObj m.
Proof.
  unfold complete. destruct data; simpl; try discriminate; eauto.
  all: rewrite ?andb_false_r; discriminate.
Qed.

(** Without [body.png], complete data is given the ban flag of the
    caller, persisted and returned, whether or not the assets could be
    fetched. *)
Lemma finish_complete E uuid banned data w :
  existsSync w (bodyfile_of E uuid) = false ->
  complete data = true ->
  exists w' d,
    finish E uuid banned data w = Some (w', Resolved d)
    /\ d = js_set data "data" (with_banned data banned)
    /\ banned_of d = Some (JBool banned)
    /\ read_json w' (cachefile_of E uuid) = inr d
    /\ (forall k, k <> "data" -> js_get d k = js_get data k)
    /\ downloads w' = downloads w ++ (if dir_blocked w (playerpath_of E uuid)
                                      then [] else asset_downloads E uuid).
Proof.
  intros Hbody Hc. unfold finish. rewrite Hbody, Hc.
  destruct (complete_is_object data Hc) as (m & ->).
  unfold bind, try_catch, getPlayerAssets, effect, ret, ensureDirSync, dir_blocked.
  destruct (existsb (not_a_directory w) (dir_chain (playerpath_of E uuid))); simpl.
  all: eexists _, _; split; [reflexivity|]; split; [reflexivity|].
  all: split; [unfold banned_of, with_banned; simpl;
               rewrite lookup_insert_eq; simpl; apply lookup_insert_eq|].
  all: split; [unfold read_json, writeJSON; simpl; now rewrite lookup_insert_eq|].
  all: split; [intros k Hk; simpl; now rewrite lookup_insert_ne|].
  all: unfold downloads, asset_downloads; simpl; rewrite <- ?app_assoc, ?app_nil_r;
    reflexivity.
Qed.

Lemma calm_refl w : calm w w.
Proof. split; reflexivity. Qed.

Lemma calm_trans w1 w2 w3 : calm w1 w2 -> calm w2 w3 -> calm w1 w3.
Proof. intros [? ?] [? ?]. split; congruence. Qed.

Lemma calm_emit_log a b c d w : calm w (emit (EvLog a b c d) w).
Proof. split; reflexivity. Qed.

Lemma same_gate_trans w1 w2 w3 : same_gate w1 w2 -> same_gate w2 w3 -> same_gate w1 w3.
Proof. intros (? & ? & ?) (? & ? & ?). repeat split; congruence. Qed.

Lemma read_json_readable w p j : read_json w p = inr j -> readable w p = true.
Proof.
  unfold read_json, readable. destruct (files w !! p) as [[]|]; congruence.
Qed.

Lemma unreadable_read_json w p : readable w p = false -> exists e, read_json w p = inl e.
Proof.
  unfold read_json, readable. destruct (files w !! p) as [[]|]; try discriminate; eauto.
Qed.

Lemma getPlayerState_spec E uuid w :
  exists w1 out,
    getPlayerState E uuid w = Some (w1, out)
    /\ calm w w1 /\ same_gate w w1
    /\ match stats_source E uuid w with
       | Some j => out = Resolved (mergeStats E j, j)
       | None => exists e, out = Rejected e
       end.
Proof.
  unfold getPlayerState, stats_source.
  destruct (configured (render_stats (cfg E))) as [dir|].
  - destruct (readable w _) eqn:Hr.
    + destruct (read_json w _) as [e|j]; eexists _, _; split; try reflexivity;
        repeat split; eauto.
    + destruct (unreadable_read_json _ _ Hr) as (e & ->).
      eexists _, _; split; [reflexivity|]. repeat split; eauto.
  - eexists _, _; split; [reflexivity|]. repeat split; eauto.
Qed.

Lemma getPlayerAdvancements_spec E uuid w :
  exists w1 out,
    getPlayerAdvancements E uuid w = Some (w1, out)
    /\ calm w w1 /\ same_gate w w1
    /\ match advancements_source E uuid w with
       | Some j => out = Resolved j
       | None => exists e, out = Rejected e
       end.
Proof.
  unfold getPlayerAdvancements, advancements_source.
  destruct (configured (render_advancements (cfg E))) as [dir|].
  - destruct (readable w _) eqn:Hr.
    + destruct (read_json w _) as [e|j]; eexists _, _; split; try reflexivity;
        repeat split; eauto.
    + destruct (unreadable_read_json _ _ Hr) as (e & ->).
      eexists _, _; split; [reflexivity|]. repeat split; eauto.
  - eexists _, _; split; [reflexivity|]. repeat split; eauto.
Qed.

Lemma getPlayerData_missing E fuel uuid w :
  player_source E uuid w = None ->
  exists w1, getPlayerData E fuel uuid w = Some (w1, Rejected ErrUndefined) /\ calm w w1.
Proof.
  unfold player_source, getPlayerData. intros ->.
  eexists. split; [reflexivity|]. apply calm_emit_log.
Qed.

Lemma getPlayerData_runs E uuid w n :
  player_source E uuid w = Some n ->
  gate_live E w ->
  exists n0 w0, clock w <= clock w0 /\
    forall fuel, (n0 <= fuel)%nat ->
    exists w1,
      getPlayerData E fuel uuid w
      = Some (w1, player_outcome n uuid (clock w1)
                    (history_of (fst (http E (apiNameHistory (strip_dashes uuid)) (clock w0)))))
      /\ calm w w1.
Proof.
  unfold player_source, getPlayerData. intros -> Hlive.
  set (w1 := emit _ w).
  assert (Hlive1 : gate_live E w1) by (eapply same_gate_live; [apply same_gate_emit | exact Hlive]).
  destruct (getNameHistory_runs E (strip_dashes uuid) w1 Hlive1) as (n0 & w0 & Hc & Hrun).
  exists n0, w0. split; [exact Hc|]. intros fuel Hfuel.
  destruct (Hrun fuel Hfuel) as (w2 & Hget & Hfs & Hdl & _).
  exists w2. unfold bind, try_catch. rewrite Hget.
  split; [|split; assumption].
  unfold player_outcome.
  destruct (history_of _) as [[|first rest]|]; try reflexivity.
  destruct (firstPlayed n), (lastPlayed n); reflexivity.
Qed.

(** C6, as the code has it.  [getNameHistory] returns, and when the
    service has answered with a list of entries it returns those entries,
    sorted by [changedToAt] descending with a missing timestamp counted
    as 0: an entry without [changedToAt] is followed by no entry with a
    positive timestamp, and by entries of timestamp 0 only when no
    timestamp is negative.  When the player file carries its two
    timestamps and the list is not empty, [getPlayerData] resolves with
    that sorted list as [names] and with the name of its first entry,
    which no entry of the list is more recent than, as [playername]. *)
Theorem name_history_descending (E : env) (uuid : string) (w : world) :
  gate_live E w ->
  (exists n w0, clock w <= clock w0 /\
     forall fuel, (n <= fuel)%nat ->
     exists w' r,
       getNameHistory E fuel (strip_dashes uuid) w = Some (w', Resolved r)
       /\ forall body,
            fst (http E (apiNameHistory (strip_dashes uuid)) (clock w0)) = HttpOk (Some body) ->
            exists h, r = Some h
              /\ Permutation h body
              /\ StronglySorted (descending stamp) h
              /\ (forall l1 a l2 b l3, h = l1 ++ a :: l2 ++ b :: l3 ->
                   changedToAt a = None -> stamp b <= 0)
              /\ (Forall (fun e => 0 <= stamp e) body ->
                  forall l1 a l2 b l3, h = l1 ++ a :: l2 ++ b :: l3 ->
                  changedToAt a = None -> stamp b = 0))
  /\ (forall n timeStart timeLast,
        player_source E uuid w = Some n ->
        firstPlayed n = Some timeStart -> lastPlayed n = Some timeLast ->
        exists n0 w0, clock w <= clock w0 /\
        forall fuel, (n0 <= fuel)%nat ->
        exists w1 out,
          getPlayerData E fuel uuid w = Some (w1, out)
          /\ forall body,
               fst (http E (apiNameHistory (strip_dashes uuid)) (clock w0))
               = HttpOk (Some body) ->
               body <> [] ->
               exists d first rest,
                 out = Resolved d
                 /\ Permutation (first :: rest) body
                 /\ StronglySorted (descending stamp) (first :: rest)
                 /\ js_get d "names" = Some (JArr (map entry_json (first :: rest)))
                 /\ js_get d "playername" = Some (JStr (name first))
                 /\ Forall (fun e => stamp e <= stamp first) body).
Proof.
  intros Hlive. split.
  - destruct (getNameHistory_runs E (strip_dashes uuid) w Hlive) as (n & w0 & Hc & Hrun).
    exists n, w0. split; [exact Hc|]. intros fuel Hfuel.
    destruct (Hrun fuel Hfuel) as (w' & Hget & _).
    exists w', (history_of (fst (http E (apiNameHistory (strip_dashes uuid)) (clock w0)))).
    split; [exact Hget|].
    intros body ->. exists (js_sort history_cmp body).
    split; [reflexivity|]. apply sorted_body.
  - intros n ts tl Hpl Hts Htl.
    destruct (getPlayerData_runs E uuid w n Hpl Hlive) as (n0 & w0 & Hc & Hrun).
    exists n0, w0. split; [exact Hc|]. intros fuel Hfuel.
    destruct (Hrun fuel Hfuel) as (w1 & Hget & _).
    eexists w1, _. split; [exact Hget|].
    intros body -> Hne. unfold player_outcome, history_of.
    destruct (sorted_body body) as (Hperm & Hs & _).
    destruct (js_sort history_cmp body) as [|first rest] eqn:Hsort.
    { apply Permutation_nil in Hperm. congruence. }
    rewrite Hts, Htl.
    eexists _, first, rest. split; [reflexivity|].
    split; [exact Hperm|]. split; [exact Hs|].
    split; [reflexivity|]. split; [reflexivity|].
    apply (Permutation_Forall Hperm). constructor.
    + lia.
    + inversion Hs; subst. assumption.
Qed.

(** The claim at work on the sample installation, where the service
    lists three names out of order: they come back newest first, and the
    snapshot is named after the newest. *)
Lemma name_history_descending_witness :
  gate_live Sample.E (Sample.fresh (Sample.save None))
  /\ (exists n w0, forall fuel, (n <= fuel)%nat ->
        exists w' r,
          getNameHistory Sample.E fuel (strip_dashes Sample.uuid)
            (Sample.fresh (Sample.save None)) = Some (w', Resolved r)
          /\ forall body,
               fst (http Sample.E (apiNameHistory (strip_dashes Sample.uuid)) (clock w0))
               = HttpOk (Some body) ->
               exists h, r = Some h /\ Permutation h body
                         /\ StronglySorted (descending stamp) h)
  /\ getNameHistory Sample.E 1 (strip_dashes Sample.uuid) (Sample.fresh (Sample.save None))
     = Some (fst (api_pass Sample.E (apiNameHistory (strip_dashes Sample.uuid))
                    (Sample.fresh (Sample.save None))),
             Resolved (Some [ NameEntry "third" (Some 1500000000000);
                              NameEntry "second" (Some 1400000000000);
                              NameEntry "first" None ])).
Proof.
  assert (H : gate_live Sample.E (Sample.fresh (Sample.save None)))
    by (intros Hw; discriminate Hw).
  split; [exact H|]. split; [|vm_compute; reflexivity].
  destruct (proj1 (name_history_descending Sample.E Sample.uuid _ H))
    as (n & w0 & _ & Hrun).
  exists n, w0. intros fuel Hfuel.
  destruct (Hrun fuel Hfuel) as (w' & r & Hget & Hbody).
  exists w', r. split; [exact Hget|].
  intros body Hb. destruct (Hbody body Hb) as (h & Hr & Hp & Hs & _).
  exists h. auto.
Defined.

(** Against C6 as stated: an entry without [changedToAt] is not always
    last.  When the service lists a name without a timestamp and a name
    with a negative one, the entry without a timestamp comes back first,
    ahead of the one that has a timestamp, and the snapshot would be named
    after it. *)
Lemma missing_timestamp_not_last_counterexample :
  exists w',
    getNameHistory
      (Sample.environment 1
         (HttpOk (Some [ NameEntry "early" (Some (-1)); NameEntry "original" None ])))
      1 (strip_dashes Sample.uuid) (Sample.fresh ∅)
    = Some (w', Resolved (Some [ NameEntry "original" None;
                                 NameEntry "early" (Some (-1)) ])).
Proof. eexists. vm_compute. reflexivity. Qed.

(** A local source that cannot be read makes [getPlayerTotalData] return
    [null], before any request is made. *)
Lemma getPlayerTotalData_null E fuel uuid w :
  stats_source E uuid w = None \/ advancements_source E uuid w = None
  \/ player_source E uuid w = None ->
  exists w1, getPlayerTotalData E fuel uuid w = Some (w1, Resolved JNull) /\ calm w w1.
Proof.
  intros Hmiss. unfold getPlayerTotalData, try_catch, bind.
  destruct (getPlayerState_spec E uuid w) as (w1 & o1 & -> & Hc1 & Hg1 & Ho1).
  destruct (stats_source E uuid w) as [src|] eqn:Hsrc.
  2:{ destruct Ho1 as (e & ->). exists w1. split; [reflexivity | exact Hc1]. }
  subst o1.
  destruct (getPlayerAdvancements_spec E uuid w1) as (w2 & o2 & -> & Hc2 & Hg2 & Ho2).
  assert (Hadv : advancements_source E uuid w1 = advancements_source E uuid w).
  { unfold advancements_source. destruct Hc1 as [Hf _].
    destruct (configured _); [|reflexivity]. now rewrite (read_json_same_files w w1). }
  rewrite Hadv in Ho2.
  destruct (advancements_source E uuid w) as [adv|] eqn:Hadvs.
  2:{ destruct Ho2 as (e & ->). exists w2. split; [reflexivity|].
      eapply calm_trans; eassumption. }
  subst o2.
  destruct Hmiss as [Hm|[Hm|Hm]]; try discriminate.
  assert (Hpl : player_source E uuid w2 = None).
  { unfold player_source, load_nbt in *. destruct Hc1 as [Hf1 _], Hc2 as [Hf2 _].
    now rewrite Hf2, Hf1. }
  destruct (getPlayerData_missing E fuel uuid w2 Hpl) as (w3 & -> & Hc3).
  exists w3. split; [reflexivity|].
  eapply calm_trans; [|exact Hc3]. eapply calm_trans; eassumption.
Qed.

(** With the three local sources read, [getPlayerTotalData] depends on
    the name history alone. *)
Lemma getPlayerTotalData_runs E uuid w src adv n :
  stats_source E uuid w = Some src ->
  advancements_source E uuid w = Some adv ->
  player_source E uuid w = Some n ->
  gate_live E w ->
  exists n0 w0, clock w <= clock w0 /\
    forall fuel, (n0 <= fuel)%nat ->
    exists w1,
      getPlayerTotalData E fuel uuid w
      = Some (w1, total_outcome E src adv
                    (player_outcome n uuid (clock w1)
                       (history_of (fst (http E (apiNameHistory (strip_dashes uuid))
                                           (clock w0))))))
      /\ calm w w1.
Proof.
  intros Hsrc Hadvs Hpls Hlive.
  destruct (getPlayerState_spec E uuid w) as (w1 & o1 & Hr1 & Hc1 & Hg1 & Ho1).
  rewrite Hsrc in Ho1. subst o1.
  destruct (getPlayerAdvancements_spec E uuid w1) as (w2 & o2 & Hr2 & Hc2 & Hg2 & Ho2).
  assert (Hadv : advancements_source E uuid w1 = Some adv).
  { rewrite <- Hadvs. unfold advancements_source. destruct Hc1 as [Hf _].
    destruct (configured _); [|reflexivity]. now rewrite (read_json_same_files w w1). }
  rewrite Hadv in Ho2. subst o2.
  assert (Hpl : player_source E uuid w2 = Some n).
  { rewrite <- Hpls. unfold player_source, load_nbt. destruct Hc1 as [Hf1 _], Hc2 as [Hf2 _].
    now rewrite Hf2, Hf1. }
  assert (Hlive2 : gate_live E w2).
  { eapply same_gate_live; [|exact Hlive]. eapply same_gate_trans; eassumption. }
  destruct (getPlayerData_runs E uuid w2 n Hpl Hlive2) as (n0 & w0 & Hclk & Hrun).
  exists n0, w0. split.
  { destruct Hg1 as (_ & _ & Hk1), Hg2 as (_ & _ & Hk2). lia. }
  intros fuel Hfuel. destruct (Hrun fuel Hfuel) as (w3 & Hr3 & Hc3).
  exists w3. split.
  - unfold getPlayerTotalData, try_catch, bind. rewrite Hr1, Hr2, Hr3.
    destruct (player_outcome _ _ _ _); reflexivity.
  - eapply calm_trans; [|exact Hc3]. eapply calm_trans; eassumption.
Qed.

Lemma createPlayerData_load E fuel uuid banned w :
  createPlayerData E fuel uuid banned w
  = (let* data := load_data E fuel uuid in finish E uuid banned data) w.
Proof. apply createPlayerData_unfold. Qed.

Lemma read_json_exists w p j : read_json w p = inr j -> existsSync w p = true.
Proof.
  unfold read_json, existsSync. destruct (files w !! p) as [[]|]; congruence.
Qed.

(** A cache hit: the cached value goes straight to the asset check. *)
Lemma createPlayerData_cached E fuel uuid banned w j :
  read_json w (cachefile_of E uuid) = inr j ->
  createPlayerData E fuel uuid banned w = finish E uuid banned j w.
Proof.
  intros Hj. rewrite createPlayerData_load. unfold bind, load_data.
  now rewrite (read_json_exists _ _ _ Hj), Hj.
Qed.

(** The first step always settles, and leaves files and downloads as
    they were. *)
Lemma load_data_runs E uuid w :
  gate_live E w ->
  exists n, forall fuel, (n <= fuel)%nat ->
    exists w1 o1, load_data E fuel uuid w = Some (w1, o1) /\ calm w w1.
Proof.
  intros Hlive. unfold load_data.
  destruct (existsSync w (cachefile_of E uuid)).
  { exists 0%nat. intros fuel _.
    destruct (read_json w _); eexists _, _; split; try reflexivity; apply calm_refl. }
  destruct (stats_source E uuid w) as [src|] eqn:Hsrc.
  2:{ exists 0%nat. intros fuel _.
      destruct (getPlayerTotalData_null E fuel uuid w) as (w1 & -> & Hc); eauto. }
  destruct (advancements_source E uuid w) as [adv|] eqn:Hadv.
  2:{ exists 0%nat. intros fuel _.
      destruct (getPlayerTotalData_null E fuel uuid w) as (w1 & -> & Hc); eauto. }
  destruct (player_source E uuid w) as [n|] eqn:Hpl.
  2:{ exists 0%nat. intros fuel _.
      destruct (getPlayerTotalData_null E fuel uuid w) as (w1 & -> & Hc); eauto. }
  destruct (getPlayerTotalData_runs E uuid w src adv n Hsrc Hadv Hpl Hlive)
    as (n0 & w0 & _ & Hrun).
  exists n0. intros fuel Hfuel. destruct (Hrun fuel Hfuel) as (w1 & -> & Hc). eauto.
Qed.

(** C1 at the input it fails on: a cached player whose [body.png] is in
    place and whose [avatar.png] is missing.  The asset check looks at
    [body.png] alone, the cached snapshot is returned and nothing is
    downloaded. *)
Theorem avatar_missing_no_download :
  let w := Sample.fresh (<[Sample.bodyfile := FileOther]>
                           {[ Sample.cachefile := FileJson (Sample.cached false) ]}) in
  existsSync w Sample.avatarfile = false
  /\ existsSync w Sample.bodyfile = true
  /\ forall fuel banned,
       exists w', createPlayerData Sample.E fuel Sample.uuid banned w
                  = Some (w', Resolved (Sample.cached false))
                  /\ downloads w' = [].
Proof.
  intros w. split; [reflexivity|]. split; [reflexivity|].
  intros fuel banned. exists w.
  rewrite (createPlayerData_cached _ _ _ _ _ (Sample.cached false)) by reflexivity.
  rewrite finish_body_present by reflexivity. split; reflexivity.
Qed.

(** C2, as the code has it.  Without [body.png], the call settles and any
    snapshot it yields carries the ban flag of the caller and is what the
    cache file then holds; a complete cached snapshot is yielded with its
    other properties as cached, whatever ban flag it was cached with.
    With both asset files in place, the cached value is returned as it
    is. *)
Theorem banned_refreshed_with_assets (E : env) (uuid : string) (banned : bool) (w : world) :
  gate_live E w ->
  (existsSync w (bodyfile_of E uuid) = false ->
     (exists n, forall fuel, (n <= fuel)%nat ->
        exists w' out,
          createPlayerData E fuel uuid banned w = Some (w', out)
          /\ forall d, out = Resolved d ->
               banned_of d = Some (JBool banned)
               /\ read_json w' (cachefile_of E uuid) = inr d)
     /\ (forall j, read_json w (cachefile_of E uuid) = inr j -> complete j = true ->
         forall fuel, exists w' d,
           createPlayerData E fuel uuid banned w = Some (w', Resolved d)
           /\ banned_of d = Some (JBool banned)
           /\ forall k, k <> "data" -> js_get d k = js_get j k))
  /\ (existsSync w (avatarfile_of E uuid) = true ->
      existsSync w (bodyfile_of E uuid) = true ->
      forall j, read_json w (cachefile_of E uuid) = inr j ->
      forall fuel, createPlayerData E fuel uuid banned w = Some (w, Resolved j)).
Proof.
  intros Hlive. split.
  - intros Hbody. split.
    + destruct (load_data_runs E uuid w Hlive) as (n & Hrun).
      exists n. intros fuel Hfuel.
      destruct (Hrun fuel Hfuel) as (w1 & o1 & Hload & Hf1 & _).
      rewrite createPlayerData_load. unfold bind. rewrite Hload.
      assert (Hbody1 : existsSync w1 (bodyfile_of E uuid) = false)
        by (now rewrite (existsSync_same_files w w1)).
      destruct o1 as [data|e|].
      * destruct (complete data) eqn:Hc.
        -- destruct (finish_complete E uuid banned data w1 Hbody1 Hc)
             as (w' & d & -> & _ & Hb & Hcache & _ & _).
           exists w', (Resolved d). split; [reflexivity|].
           intros d' [= <-]. auto.
        -- rewrite finish_incomplete by assumption.
           eexists _, _. split; [reflexivity|]. discriminate.
      * eexists _, _. split; [reflexivity|]. discriminate.
      * eexists _, _. split; [reflexivity|]. discriminate.
    + intros j Hj Hc fuel.
      rewrite (createPlayerData_cached _ _ _ _ _ j Hj).
      destruct (finish_complete E uuid banned j w Hbody Hc)
        as (w' & d & -> & _ & Hb & _ & Hk & _).
      exists w', d. auto.
  - intros _ Hbody j Hj fuel.
    rewrite (createPlayerData_cached _ _ _ _ _ j Hj).
    now apply finish_body_present.
Qed.

(** The claim at work: a snapshot cached as not banned, with no
    [body.png], comes back banned when the caller says so. *)
Lemma banned_refreshed_with_assets_witness :
  let w := Sample.fresh {[ Sample.cachefile := FileJson (Sample.cached false) ]} in
  gate_live Sample.E w
  /\ existsSync w (bodyfile_of Sample.E Sample.uuid) = false
  /\ banned_of (Sample.cached false) = Some (JBool false)
  /\ exists w' d,
       createPlayerData Sample.E 0 Sample.uuid true w = Some (w', Resolved d)
       /\ banned_of d = Some (JBool true).
Proof.
  intros w.
  assert (H : gate_live Sample.E w) by (intros Hw; discriminate Hw).
  split; [exact H|]. split; [reflexivity|]. split; [reflexivity|].
  destruct (proj1 (banned_refreshed_with_assets Sample.E Sample.uuid true w H) eq_refl)
    as (_ & Hcached).
  destruct (Hcached (Sample.cached false) eq_refl eq_refl 0%nat) as (w' & d & Hrun & Hb & _).
  exists w', d. split; [exact Hrun | exact Hb].
Defined.

(** Against C2 as stated: a snapshot cached as not banned, with both
    asset files in place, comes back not banned although the caller
    passes [true]. *)
Lemma banned_stale_counterexample :
  let w := Sample.fresh (<[Sample.avatarfile := FileOther]>
                           (<[Sample.bodyfile := FileOther]>
                              {[ Sample.cachefile := FileJson (Sample.cached false) ]})) in
  exists w' d,
    createPlayerData Sample.E 1 Sample.uuid true w = Some (w', Resolved d)
    /\ banned_of d = Some (JBool false)
    /\ banned_of d <> Some (JBool true).
Proof.
  eexists _, _. split; [vm_compute; reflexivity|].
  split; [reflexivity | discriminate].
Qed.


Lemma total_of_stats E src adv data :
  js_get (total_of E src adv data) "stats" = Some (mergeStats E src).
Proof. reflexivity. Qed.

Lemma total_of_advancements E src adv data :
  js_get (total_of E src adv data) "advancements" = Some adv.
Proof. reflexivity. Qed.

(** A cache miss with a local source that cannot be read: the asset
    check receives [null]. *)
Lemma createPlayerData_null E fuel uuid banned w :
  existsSync w (cachefile_of E uuid) = false ->
  stats_source E uuid w = None \/ advancements_source E uuid w = None
  \/ player_source E uuid w = None ->
  exists w1, calm w w1
    /\ getPlayerTotalData E fuel uuid w = Some (w1, Resolved JNull)
    /\ createPlayerData E fuel uuid banned w = finish E uuid banned JNull w1.
Proof.
  intros Hcache Hmiss.
  destruct (getPlayerTotalData_null E fuel uuid w Hmiss) as (w1 & Hrun & Hc).
  exists w1. split; [exact Hc|]. split; [exact Hrun|].
  rewrite createPlayerData_load. unfold bind, load_data.
  now rewrite Hcache, Hrun.
Qed.

(** A cache miss with the three local sources read: the asset check
    receives what the name history makes of them. *)
Lemma createPlayerData_lookup E uuid banned w src adv n :
  existsSync w (cachefile_of E uuid) = false ->
  stats_source E uuid w = Some src ->
  advancements_source E uuid w = Some adv ->
  player_source E uuid w = Some n ->
  gate_live E w ->
  exists n0 w0, forall fuel, (n0 <= fuel)%nat ->
    exists w1, calm w w1
      /\ createPlayerData E fuel uuid banned w
         = match total_outcome E src adv
                   (player_outcome n uuid (clock w1)
                      (history_of (fst (http E (apiNameHistory (strip_dashes uuid))
                                          (clock w0)))))
           with
           | Resolved data => finish E uuid banned data w1
           | Rejected e => Some (w1, Rejected e)
           | Pending => Some (w1, Pending)
           end.
Proof.
  intros Hcache Hsrc Hadv Hpl Hlive.
  destruct (getPlayerTotalData_runs E uuid w src adv n Hsrc Hadv Hpl Hlive)
    as (n0 & w0 & _ & Hrun).
  exists n0, w0. intros fuel Hfuel. destruct (Hrun fuel Hfuel) as (w1 & Hget & Hc).
  exists w1. split; [exact Hc|].
  rewrite createPlayerData_load. unfold bind, load_data.
  rewrite Hcache, Hget. now destruct (total_outcome _ _ _ _).
Qed.



Lemma sample_has_history ratelimit :
  has_history (Sample.environment ratelimit (HttpOk (Some Sample.history))) Sample.uuid.
Proof. intros t. exact I. Qed.

Lemma sample_gate_live E fs : gate_live E (Sample.fresh fs).
Proof.
  intros Hw. unfold must_wait in Hw. simpl in Hw.
  rewrite andb_false_r in Hw. discriminate Hw.
Qed.








(** C10: there is an input on which [createPlayerData] resolves with
    [null]: no cache file, a statistics file that cannot be read, so that
    [getPlayerTotalData] returns [null], and [body.png] in place. *)
Theorem null_resolved_when_body_exists :
  exists (E : env) (uuid : string) (banned : bool) (w : world),
    existsSync w (cachefile_of E uuid) = false
    /\ existsSync w (bodyfile_of E uuid) = true
    /\ forall fuel,
         (exists w1, getPlayerTotalData E fuel uuid w = Some (w1, Resolved JNull))
         /\ exists w', createPlayerData E fuel uuid banned w = Some (w', Resolved JNull).
Proof.
  exists Sample.E, Sample.uuid, false,
    (Sample.fresh (<[Sample.bodyfile := FileOther]>
                     (delete Sample.statsfile (Sample.save None)))).
  split; [reflexivity|]. split; [reflexivity|].
  intros fuel.
  destruct (createPlayerData_null Sample.E fuel Sample.uuid false
              (Sample.fresh (<[Sample.bodyfile := FileOther]>
                               (delete Sample.statsfile (Sample.save None)))))
    as (w1 & [Hf _] & Hnull & ->); [reflexivity | left; reflexivity |].
  split; [eauto|].
  exists w1. apply finish_body_present.
  now rewrite (existsSync_same_files _ w1 _ Hf).
Qed.

(** ** Concurrent callers *)

Module ConcurrentFacts.
Import Concurrent.

Lemma flying_app l1 l2 : flying (l1 ++ l2) = (flying l1 + flying l2)%nat.
Proof. unfold flying. now rewrite List.filter_app, length_app. Qed.

Lemma flying_insert l i c0 c :
  l !! i = Some c0 ->
  (flying (<[i := c]> l) + weight c0 = flying l + weight c)%nat.
Proof.
  revert i. induction l as [|x l IH]; intros i Hi; [discriminate|].
  destruct i as [|i]; simpl in *.
  - injection Hi as ->. unfold flying, weight. simpl.
    destruct (in_flight c0), (in_flight c); simpl; lia.
  - specialize (IH i Hi). unfold flying in *. simpl.
    destruct (in_flight x); simpl; lia.
Qed.

Lemma flying_ge l i url : l !! i = Some (InFlight url) -> (1 <= flying l)%nat.
Proof.
  revert i. induction l as [|x l IH]; intros i Hi; [discriminate|].
  destruct i as [|i]; simpl in *.
  - injection Hi as ->. unfold flying. simpl. lia.
  - specialize (IH i Hi). unfold flying in *. simpl.
    destruct (in_flight x); simpl; lia.
Qed.

Lemma gate_inv_initial s : initial s -> gate_inv s.
Proof.
  intros (_ & Ht & Hc). unfold gate_inv, count_in_flight. rewrite Ht, Hc.
  simpl. split; [lia | reflexivity].
Qed.

Lemma settle_flag E url res w : apiLimited (fst (api_settle E url res w)) = apiLimited w.
Proof. now destruct res. Qed.

Lemma settle_timers E url res w :
  List.length (timers (fst (api_settle E url res w))) = S (List.length (timers w)).
Proof. now destruct res. Qed.

Lemma settle_lands E url res w :
  weight (settled url (snd (api_settle E url res w))) = 0%nat.
Proof. now destruct res. Qed.

Lemma gate_inv_step E s s' :
  api_ratelimit (cfg E) <> 0 ->
  step E s s' -> gate_inv s -> gate_inv s'.
Proof.
  intros Hrl Hstep (Hle & Hfree). unfold gate_inv, count_in_flight in *.
  fold (flying (callers s)) in *. fold (flying (callers s')).
  inversion Hstep; subst; cbn [callers shared timers apiLimited set_apiLimited set_timers
                               set_clock api_acquire emit].
  - rewrite flying_app. change (flying [Calling url]) with 0%nat. split; [lia|].
    intros Hf. specialize (Hfree Hf). lia.
  - pose proof (flying_insert _ _ _ (Waiting url (clock (shared s) + 10)) H) as Hw.
    unfold weight in Hw. simpl in Hw. split; [lia|].
    intros Hf. specialize (Hfree Hf). lia.
  - pose proof (flying_insert _ _ _ (InFlight url) H) as Hw.
    unfold weight in Hw. simpl in Hw.
    assert (Hf : apiLimited (shared s) = false).
    { unfold must_wait in H0. destruct (Z.eqb_spec (api_ratelimit (cfg E)) 0); [contradiction|].
      simpl in H0. exact H0. }
    specialize (Hfree Hf). split; [lia | discriminate].
  - pose proof (flying_insert _ _ _ (Calling url) H) as Hw.
    unfold weight in Hw. simpl in Hw. split; [lia|].
    intros Hf. specialize (Hfree Hf). lia.
  - pose proof (flying_insert _ _ _
                  (settled url (snd (api_settle E url res (shared s)))) H) as Hw.
    rewrite settle_lands in Hw. unfold weight in Hw. simpl in Hw.
    pose proof (flying_ge _ _ _ H) as Hge.
    rewrite settle_timers, settle_flag. split; [lia|].
    intros Hf. specialize (Hfree Hf). lia.
  - apply lookup_lt_Some in H as Hlt.
    rewrite length_delete by eauto.
    split; [lia|]. intros _. lia.
  - split; [lia|]. exact Hfree.
Qed.

Lemma gate_inv_reachable E s :
  api_ratelimit (cfg E) <> 0 -> reachable E s -> gate_inv s.
Proof.
  intros Hrl (s0 & Hinit & Hrtc).
  revert s Hrtc. apply rtc_ind_r.
  - now apply gate_inv_initial.
  - intros y z _ Hstep IH. eapply gate_inv_step; eauto.
Qed.

End ConcurrentFacts.

(** C8, as the code has it.  With a rate limit other than zero, in every
    state that concurrently running calls can reach at most one request is
    in flight, and the flag is set while it is; a call that finds the
    flag set does not issue a request: in any turn it stays as it is or
    suspends until 10 milliseconds later, after which it checks again. *)
Theorem one_request_in_flight (E : env) (s : Concurrent.system) :
  api_ratelimit (cfg E) <> 0 ->
  Concurrent.reachable E s ->
  (Concurrent.count_in_flight s <= 1)%nat
  /\ (Concurrent.count_in_flight s = 1%nat -> apiLimited (Concurrent.shared s) = true)
  /\ (forall i url s',
        Concurrent.callers s !! i = Some (Concurrent.Calling url) ->
        apiLimited (Concurrent.shared s) = true ->
        Concurrent.step E s s' ->
        Concurrent.callers s' !! i = Some (Concurrent.Calling url)
        \/ Concurrent.callers s' !! i
           = Some (Concurrent.Waiting url (clock (Concurrent.shared s) + 10))).
Proof.
  intros Hrl Hreach.
  destruct (ConcurrentFacts.gate_inv_reachable E s Hrl Hreach) as (Hle & Hfree).
  split; [lia|]. split.
  - intros H1. destruct (apiLimited (Concurrent.shared s)); [reflexivity|].
    specialize (Hfree eq_refl). lia.
  - intros i url s' Hi Hflag Hstep.
    assert (Hwait : must_wait E (Concurrent.shared s) = true).
    { unfold must_wait. rewrite Hflag.
      destruct (Z.eqb_spec (api_ratelimit (cfg E)) 0); [contradiction | reflexivity]. }
    inversion Hstep; subst; simpl.
    + left. rewrite lookup_app_l; [exact Hi|]. eapply lookup_lt_Some; eauto.
    + destruct (decide (i0 = i)) as [->|Hne].
      * right. rewrite H in Hi. injection Hi as ->.
        apply list_lookup_insert_eq. eapply lookup_lt_Some; eauto.
      * left. now rewrite list_lookup_insert_ne.
    + congruence.
    + destruct (decide (i0 = i)) as [->|Hne]; [congruence|].
      left. now rewrite list_lookup_insert_ne.
    + destruct (decide (i0 = i)) as [->|Hne]; [congruence|].
      left. now rewrite list_lookup_insert_ne.
    + left. exact Hi.
    + left. exact Hi.
Qed.

(** The claim at work: with a limit of one second, one call has issued
    its request; the flag is set. *)
Lemma one_request_in_flight_witness :
  exists s,
    api_ratelimit (cfg Sample.E) <> 0
    /\ Concurrent.reachable Sample.E s
    /\ Concurrent.count_in_flight s = 1%nat
    /\ apiLimited (Concurrent.shared s) = true.
Proof.
  set (s0 := Concurrent.System (Sample.fresh ∅) []).
  set (s1 := Concurrent.System (Sample.fresh ∅) [Concurrent.Calling "u"]).
  set (s2 := Concurrent.System (api_acquire "u" (Sample.fresh ∅)) [Concurrent.InFlight "u"]).
  assert (Hrl : api_ratelimit (cfg Sample.E) <> 0) by (intros H; discriminate H).
  assert (Hreach : Concurrent.reachable Sample.E s2).
  { exists s0. split; [repeat split|].
    apply (rtc_l _ s0 s1 s2); [exact (Concurrent.step_call Sample.E s0 "u")|].
    apply (rtc_l _ s1 s2 s2); [|apply rtc_refl].
    exact (Concurrent.step_acquire Sample.E s1 0 "u" eq_refl eq_refl). }
  exists s2. split; [exact Hrl|]. split; [exact Hreach|]. split; [reflexivity|].
  exact (proj1 (proj2 (one_request_in_flight Sample.E s2 Hrl Hreach)) eq_refl).
Defined.

(** Against C8 as stated: with a rate limit of zero two calls made one
    after the other both have their request in flight. *)
Lemma two_requests_in_flight_counterexample :
  exists s,
    api_ratelimit (cfg (Sample.environment 0 (HttpOk (Some Sample.history)))) = 0
    /\ Concurrent.reachable (Sample.environment 0 (HttpOk (Some Sample.history))) s
    /\ Concurrent.count_in_flight s = 2%nat.
Proof.
  set (E0 := Sample.environment 0 (HttpOk (Some Sample.history))).
  set (s0 := Concurrent.System (Sample.fresh ∅) []).
  set (s1 := Concurrent.System (Sample.fresh ∅) [Concurrent.Calling "a"]).
  set (s2 := Concurrent.System (Sample.fresh ∅)
               [Concurrent.Calling "a"; Concurrent.Calling "b"]).
  set (s3 := Concurrent.System (api_acquire "a" (Sample.fresh ∅))
               [Concurrent.InFlight "a"; Concurrent.Calling "b"]).
  set (s4 := Concurrent.System (api_acquire "b" (api_acquire "a" (Sample.fresh ∅)))
               [Concurrent.InFlight "a"; Concurrent.InFlight "b"]).
  exists s4. split; [reflexivity|]. split; [|reflexivity].
  exists s0. split; [repeat split|].
  apply (rtc_l _ s0 s1 s4); [exact (Concurrent.step_call E0 s0 "a")|].
  apply (rtc_l _ s1 s2 s4); [exact (Concurrent.step_call E0 s1 "b")|].
  apply (rtc_l _ s2 s3 s4); [exact (Concurrent.step_acquire E0 s2 0 "a" eq_refl eq_refl)|].
  apply (rtc_l _ s3 s4 s4); [|apply rtc_refl].
  exact (Concurrent.step_acquire E0 s3 1 "b" eq_refl eq_refl).
Qed.

(** * Further properties *)

(** ** Identifiers and file names *)

Lemma string_length_list s : String.length s = List.length (list_ascii_of_string s).
Proof. induction s as [|c s IH]; simpl; [reflexivity | now rewrite IH]. Qed.

Lemma strip_dashes_list s :
  list_ascii_of_string (strip_dashes s)
  = List.filter (fun c => negb (Ascii.eqb c "-")) (list_ascii_of_string s).
Proof.
  induction s as [|c s IH]; simpl; [reflexivity|].
  destruct (Ascii.eqb c "-"); simpl; now rewrite IH.
Qed.

Lemma hex_not_dash c : UuidRegex.is_hex c -> negb (Ascii.eqb c "-") = true.
Proof.
  unfold UuidRegex.is_hex. simpl. intros H.
  repeat (destruct H as [<-|H]; [reflexivity|]). contradiction.
Qed.

Lemma filter_hex_id l :
  Forall UuidRegex.is_hex l ->
  List.filter (fun c => negb (Ascii.eqb c "-")) l = l.
Proof.
  induction 1 as [|c l Hc _ IH]; simpl; [reflexivity|].
  now rewrite (hex_not_dash c Hc), IH.
Qed.

Lemma version_is_hex c : UuidRegex.is_version c -> UuidRegex.is_hex c.
Proof.
  unfold UuidRegex.is_version, UuidRegex.is_hex. simpl. intros H.
  repeat (destruct H as [<-|H]; [tauto|]). contradiction.
Qed.

Lemma variant_is_hex c : UuidRegex.is_variant c -> UuidRegex.is_hex c.
Proof.
  unfold UuidRegex.is_variant, UuidRegex.is_hex. simpl. intros H.
  repeat (destruct H as [<-|H]; [tauto|]). contradiction.
Qed.

(** What the validator accepts splits into the five groups. *)
Lemma accepted_groups s :
  UuidRegex.test UuidRegex.uuid_regex s = true -> UuidRegex.canonical_uuid s.
Proof.
  unfold UuidRegex.test, UuidRegex.canonical_uuid. intros H.
  destruct (UuidRegex.match_seq UuidRegex.uuid_regex (list_ascii_of_string s))
    as [[|]|] eqn:Hm; try discriminate. clear H.
  unfold UuidRegex.uuid_regex in Hm.
  repeat match type of Hm with
         | UuidRegex.match_seq (_ :: _) _ = _ =>
             let r := fresh "r" in let H := fresh "H" in
             apply match_seq_cons in Hm as (r & H & Hm)
         end.
  simpl in Hm. injection Hm as ->.
  unfold UuidRegex.dash in *. cbn [UuidRegex.p_class UuidRegex.p_count] in *.
  repeat match goal with
         | H : UuidRegex.match_count [UuidRegex.CChar "-"] 1 _ = Some _ |- _ =>
             apply UuidRegexFacts.dash_spec in H
         | H : UuidRegex.match_count _ 1 _ = Some _ |- _ =>
             apply UuidRegexFacts.single_spec in H as (? & ? & H)
         | H : UuidRegex.match_count UuidRegex.hex _ _ = Some _ |- _ =>
             apply UuidRegexFacts.match_count_spec in H as (? & ? & ? & H);
             apply UuidRegexFacts.hex_Forall in H
         end.
  repeat match goal with
         | H : UuidRegex.class_test_i [UuidRegex.CRange _ _] _ = true |- _ =>
             rewrite UuidRegexFacts.version_class in H; apply UuidRegexFacts.mem_In in H
         | H : UuidRegex.class_test_i _ _ = true |- _ =>
             rewrite UuidRegexFacts.variant_class in H; apply UuidRegexFacts.mem_In in H
         end.
  subst. rewrite app_nil_r in *.
  do 7 eexists.
  match goal with
  | H : list_ascii_of_string s = _ |- _ => split; [exact H|]
  end.
  repeat split; assumption.
Qed.

(** X1: a uuid that the validator of [getAllPlayers] accepts has 36
    characters, and [uuid.replace(/-/g, '')], under which
    [createPlayerData] files the player and asks for the name history, has
    32 characters, all hexadecimal digits. *)
Theorem accepted_uuid_shape (s : string) :
  UuidRegex.test UuidRegex.uuid_regex s = true ->
  String.length s = 36%nat
  /\ String.length (strip_dashes s) = 32%nat
  /\ Forall UuidRegex.is_hex (list_ascii_of_string (strip_dashes s)).
Proof.
  intros H. apply accepted_groups in H
    as (g1 & g2 & v & g3 & r & g4 & g5 & Hs & L1 & L2 & L3 & L4 & L5
        & F1 & F2 & F3 & F4 & F5 & Hv & Hr).
  apply version_is_hex in Hv. apply variant_is_hex in Hr.
  assert (Hstrip : list_ascii_of_string (strip_dashes s)
                   = g1 ++ g2 ++ (v :: g3) ++ (r :: g4) ++ g5).
  { rewrite strip_dashes_list, Hs.
    repeat (rewrite List.filter_app; cbn [List.filter Ascii.eqb Bool.eqb negb app]).
    rewrite (hex_not_dash v Hv), (hex_not_dash r Hr).
    cbn [app]. now rewrite !filter_hex_id by assumption. }
  rewrite !string_length_list, Hstrip, Hs. split; [|split].
  - repeat (rewrite length_app; simpl). lia.
  - repeat (rewrite length_app; simpl). lia.
  - repeat (apply Forall_app; split); try assumption; constructor; assumption.
Qed.

Lemma accepted_uuid_shape_witness :
  UuidRegex.test UuidRegex.uuid_regex Sample.uuid = true
  /\ String.length Sample.uuid = 36%nat
  /\ String.length (strip_dashes Sample.uuid) = 32%nat
  /\ Forall UuidRegex.is_hex (list_ascii_of_string (strip_dashes Sample.uuid)).
Proof.
  split; [reflexivity|]. apply (accepted_uuid_shape Sample.uuid). reflexivity.
Defined.

Lemma string_length_app u x :
  String.length (u ++ x)%string = (String.length u + String.length x)%nat.
Proof. induction u as [|c u IH]; simpl; [reflexivity | now rewrite IH]. Qed.

Lemma substring_whole x : substring 0 (String.length x) x = x.
Proof. induction x as [|c x IH]; simpl; [reflexivity | now rewrite IH]. Qed.

Lemma substring_app_suffix u x :
  substring (String.length u) (String.length x) (u ++ x)%string = x.
Proof. induction u as [|c u IH]; simpl; [apply substring_whole | exact IH]. Qed.

Lemma substring_app_prefix u x :
  substring 0 (String.length u) (u ++ x)%string = u.
Proof.
  induction u as [|c u IH]; simpl.
  - now destruct x.
  - now rewrite IH.
Qed.

(** [path.basename] undoes the appending of the extension. *)
Lemma basename_ext_app u ext :
  u <> ""%string -> basename_ext (u ++ ext)%string ext = u.
Proof.
  intros Hu. unfold basename_ext, ends_with.
  rewrite string_length_app.
  replace (String.length u + String.length ext - String.length ext)%nat
    with (String.length u) by lia.
  rewrite substring_app_suffix, String.eqb_refl, substring_app_prefix.
  rewrite (proj2 (Nat.leb_le _ _)) by lia. simpl.
  destruct (String.eqb_spec (u ++ ext)%string ext) as [Heq|_]; [|reflexivity].
  apply (f_equal String.length) in Heq. rewrite string_length_app in Heq.
  destruct u; [contradiction | simpl in Heq; lia].
Qed.

(** X2: [getAllPlayers] lists the uuid of every file [<uuid>.dat] of the
    player data directory whose uuid the validator accepts. *)
Theorem player_files_listed (listing : list string) (u : string) :
  UuidRegex.test UuidRegex.uuid_regex u = true ->
  In (u ++ ".dat")%string listing ->
  In u (UuidRegex.getAllPlayers listing).
Proof.
  intros Hu Hin. unfold UuidRegex.getAllPlayers.
  apply List.filter_In. split; [|exact Hu].
  apply List.in_map_iff. exists (u ++ ".dat")%string. split; [|exact Hin].
  apply basename_ext_app. intros ->. discriminate Hu.
Qed.

Lemma player_files_listed_witness :
  In Sample.uuid
     (UuidRegex.getAllPlayers
        ["Notch.dat"; (Sample.uuid ++ ".dat")%string; "069a79f4.dat_old"]).
Proof.
  apply player_files_listed; [reflexivity | right; left; reflexivity].
Defined.

(** ** The whitelist and the ban list *)

Lemma uuid_of_cases p :
  (p = JNull /\ exists e, uuid_of p = inl e)
  \/ (p <> JNull /\ uuid_of p = inr (js_get p "uuid")).
Proof.
  destruct p; [left; split; [reflexivity | eexists; reflexivity] | ..];
    right; split; try discriminate; reflexivity.
Qed.

Lemma collect_uuids_spec l us :
  collect_uuids l = inr us <->
  ~ In JNull l /\ us = map (fun q => js_get q "uuid") l.
Proof.
  revert us. induction l as [|p l IH]; intros us.
  - simpl. split.
    + intros [= <-]. split; [tauto | reflexivity].
    + intros (_ & ->). reflexivity.
  - cbn [collect_uuids map].
    destruct (uuid_of_cases p) as [(-> & e & He) | (Hp & Hu)]; rewrite ?He, ?Hu.
    + split; [discriminate | intros (Hn & _); exfalso; apply Hn; now left].
    + destruct (collect_uuids l) as [e|us'] eqn:Hc.
      * split; [discriminate|]. intros (Hn & _).
        assert (Hl : ~ In JNull l) by (intros Hin; apply Hn; now right).
        pose proof (proj2 (IH _) (conj Hl eq_refl)) as Hr. discriminate Hr.
      * destruct (proj1 (IH us') eq_refl) as (Hn & ->). split.
        -- intros [= <-]. split; [|reflexivity].
           intros [Heq|Hin]; [now apply Hp | contradiction].
        -- intros (_ & ->). reflexivity.
Qed.

(** X3: [getWhitelistedPlayers] and [getBannedPlayers] return a list
    exactly when the document is an array without a [null] element, and
    the list then has one entry per element, in order: its [uuid], or
    [undefined] when the element has none.  Any other document makes the
    call throw; no partial list is ever returned. *)
Theorem uuid_lists_all_or_nothing (path : string) (w : world) (us : list (option json)) :
  (getWhitelistedPlayers path w = inr us <->
   exists l, read_json w path = inr (JArr l)
             /\ ~ In JNull l /\ us = map (fun q => js_get q "uuid") l)
  /\ (getBannedPlayers path w = inr us <->
      exists l, read_json w (path_join1 path) = inr (JArr l)
                /\ ~ In JNull l /\ us = map (fun q => js_get q "uuid") l).
Proof.
  assert (H : forall p, read_uuid_list w p = inr us <->
            exists l, read_json w p = inr (JArr l)
                      /\ ~ In JNull l /\ us = map (fun q => js_get q "uuid") l).
  { intros p. unfold read_uuid_list.
    destruct (read_json w p) as [e|[| | | |l|]].
    all: try (split; [discriminate | intros (l' & Hl & _); discriminate Hl]).
    rewrite collect_uuids_spec. split.
    - intros Hc. now exists l.
    - intros (l' & [= <-] & Hc). exact Hc. }
  split; apply H.
Qed.

(** ** The membership table *)

(** X4: what [membership] does without consulting the rendering of
    dates.  For a player that is [null] or [undefined] it returns its
    three rows with the values [undefined], [undefined] and [null].  For
    any other player without [data] (or with a [null] one) it throws.  For
    a player whose [data] holds no truthy [time_last], [time_start] or
    [time_lived], it returns the three rows with the stored values handed
    through as they are and [null] for the time online. *)
Theorem membership_throws_without_data (V : view_env) (player : option json) :
  (player = None \/ player = Some JNull ->
   membership V player
   = inr [ Row (translate V "nyaa.player_info.last_active") (CellRaw None);
           Row (translate V "nyaa.player_info.first_login") (CellRaw None);
           Row (translate V "nyaa.player_info.total_online") (CellRaw (Some JNull)) ])
  /\ (forall p, player = Some p -> p <> JNull ->
      js_get p "data" = None \/ js_get p "data" = Some JNull ->
      exists e, membership V player = inl e)
  /\ (forall p d, player = Some p -> p <> JNull ->
      js_get p "data" = Some d -> d <> JNull ->
      truthy_opt (js_get d "time_last") = false ->
      truthy_opt (js_get d "time_start") = false ->
      truthy_opt (js_get d "time_lived") = false ->
      membership V player
      = inr [ Row (translate V "nyaa.player_info.last_active")
                  (CellRaw (js_get d "time_last"));
              Row (translate V "nyaa.player_info.first_login")
                  (CellRaw (js_get d "time_start"));
              Row (translate V "nyaa.player_info.total_online") (CellRaw (Some JNull)) ]).
Proof.
  split; [|split].
  - intros [-> | ->]; reflexivity.
  - intros p -> Hp Hd. unfold membership, player_field.
    destruct p; try contradiction; destruct Hd as [-> | ->]; eexists; reflexivity.
  - intros p d -> Hp Hd Hnn Hlast Hstart Hlived.
    unfold membership, player_field.
    assert (Hfield : forall k,
              match p with
              | JNull => inr None
              | _ => match js_get p "data" with
                     | None | Some JNull => inl (ErrError "TypeError" ∅)
                     | Some d0 => inr (js_get d0 k)
                     end
              end = (inr (js_get d k) : jserror + option json)).
    { intros k. destruct p; try contradiction; rewrite Hd; now destruct d. }
    rewrite !Hfield. unfold formatDate, truthy_opt in *.
    destruct (js_get d "time_last") as [v1|]; [rewrite Hlast|];
      (destruct (js_get d "time_start") as [v2|]; [rewrite Hstart|]);
      (destruct (js_get d "time_lived") as [v3|]; [rewrite Hlived|]); reflexivity.
Qed.

Lemma zero_ticks_falsy : truthy (JNum (PrimFloat.div (of_Z 0) 20%float)) = false.
Proof. vm_compute. reflexivity. Qed.

(** X5: for a snapshot whose [data] is what [getPlayerData] resolved
    with, [membership] gives its three rows, and the total-online row is
    empty ([null]) when the player file has no [Spigot.ticksLived] (the
    empty string stored in [time_lived] is falsy) and when it has 0
    ticks; with 72000 ticks the row shows the rendering of 3600
    seconds. *)
Theorem membership_total_online (V : view_env) (E : env) (fuel : nat) (uuid : string)
    (w w' : world) (d p : json) :
  getPlayerData E fuel uuid w = Some (w', Resolved d) ->
  js_get p "data" = Some d ->
  exists n r1 r2 r3,
    player_source E uuid w = Some n
    /\ membership V (Some p) = inr [r1; r2; r3]
    /\ (ticksLived n = None \/ ticksLived n = Some 0 -> value r3 = CellRaw (Some JNull))
    /\ (ticksLived n = Some 72000 ->
        value r3 = CellText (formatOnline V (JNum 3600%float))).
Proof.
  intros Hd Hp.
  apply getPlayerData_resolved in Hd as (n & ts & tl & first & rest & t & Hn & _ & ->).
  destruct p; try discriminate Hp. simpl in Hp.
  exists n. unfold membership, player_field. simpl. rewrite Hp.
  unfold pdata_of at 1 2 3.
  do 3 eexists. split; [exact Hn|]. split; [reflexivity|].
  cbn [value]. rewrite pdata_of_time_lived. unfold lived_of. split.
  - intros [-> | ->]; [reflexivity|]. now rewrite zero_ticks_falsy.
  - intros ->. rewrite ticks_72000. reflexivity.
Qed.

Lemma membership_throws_without_data_witness :
  membership Sample2.view None
  = inr [ Row "nyaa.player_info.last_active" (CellRaw None);
          Row "nyaa.player_info.first_login" (CellRaw None);
          Row "nyaa.player_info.total_online" (CellRaw (Some JNull)) ]
  /\ (exists e, membership Sample2.view (Some (JObj ∅)) = inl e)
  /\ membership Sample2.view
       (Some (JObj {[ "data" := JObj {[ "time_lived" := JStr "" ]} ]}))
     = inr [ Row "nyaa.player_info.last_active" (CellRaw None);
             Row "nyaa.player_info.first_login" (CellRaw None);
             Row "nyaa.player_info.total_online" (CellRaw (Some JNull)) ].
Proof.
  split; [|split].
  - exact (proj1 (membership_throws_without_data Sample2.view None) (or_introl eq_refl)).
  - apply (proj1 (proj2 (membership_throws_without_data Sample2.view (Some (JObj ∅))))
             (JObj ∅) eq_refl); [discriminate | left; reflexivity].
  - rewrite (proj2 (proj2 (membership_throws_without_data Sample2.view
               (Some (JObj {[ "data" := JObj {[ "time_lived" := JStr "" ]} ]}))))
               (JObj {[ "data" := JObj {[ "time_lived" := JStr "" ]} ]})
               (JObj {[ "time_lived" := JStr "" ]}) eq_refl);
      first [discriminate | vm_compute; reflexivity].
Defined.

Lemma membership_total_online_witness :
  exists w' d r1 r2 r3,
    getPlayerData Sample.E 1 Sample.uuid (Sample.fresh (Sample.save None))
    = Some (w', Resolved d)
    /\ membership Sample2.view (Some (JObj {[ "data" := d ]})) = inr [r1; r2; r3]
    /\ value r3 = CellRaw (Some JNull).
Proof.
  destruct (getPlayerData Sample.E 1 Sample.uuid (Sample.fresh (Sample.save None)))
    as [[w' [d| |]]|] eqn:Hrun; try (vm_compute in Hrun; discriminate Hrun).
  assert (Hp : js_get (JObj {[ "data" := d ]}) "data" = Some d)
    by (simpl; apply lookup_singleton_eq).
  destruct (membership_total_online Sample2.view _ _ _ _ _ d (JObj {[ "data" := d ]})
              Hrun Hp) as (n & r1 & r2 & r3 & Hn & Hm & Hnull & _).
  exists w', d, r1, r2, r3. split; [reflexivity|]. split; [exact Hm|].
  apply Hnull. left. vm_compute in Hn. now injection Hn as <-.
Defined.

(** ** The cache and the assets *)

(** The asset check and what follows it always settle; they issue no
    request, leave gate and clock alone, write nothing but the cache file
    and the directory of the player, and do nothing at all when
    [body.png] is in place. *)
Lemma finish_total E uuid banned data w :
  exists w' out,
    finish E uuid banned data w = Some (w', out)
    /\ requests w' = requests w
    /\ same_gate w w'
    /\ untouched_elsewhere E uuid w w'
    /\ (existsSync w (bodyfile_of E uuid) = true -> w' = w /\ out = Resolved data)
    /\ downloads w' = downloads w ++
         match out with
         | Resolved _ =>
             if existsSync w (bodyfile_of E uuid) || dir_blocked w (playerpath_of E uuid)
             then [] else asset_downloads E uuid
         | _ => []
         end.
Proof.
  unfold finish, untouched_elsewhere.
  destruct (existsSync w (bodyfile_of E uuid)) eqn:Hbody.
  { exists w, (Resolved data). rewrite app_nil_r. repeat split; auto. }
  destruct (complete data) eqn:Hc.
  2:{ exists w, (Rejected ErrUndefined). rewrite app_nil_r.
      repeat split; auto; discriminate. }
  unfold bind, try_catch, getPlayerAssets, effect, ret, ensureDirSync, dir_blocked.
  destruct (existsb (not_a_directory w) (dir_chain (playerpath_of E uuid))); simpl.
  all: eexists _, _; split; [reflexivity|]; split; [reflexivity|].
  all: split; [repeat split|].
  all: split; [intros q Hq1 Hq2; simpl; rewrite lookup_insert_ne by congruence;
               now rewrite ?make_dirs_lookup by exact Hq2|].
  all: split; [discriminate|].
  all: unfold downloads, asset_downloads; simpl; rewrite <- ?app_assoc, ?app_nil_r;
    reflexivity.
Qed.

(** Setting the ban flag a second time changes nothing. *)
Lemma with_banned_again data banned :
  complete data = true ->
  complete (js_set data "data" (with_banned data banned)) = true
  /\ js_set (js_set data "data" (with_banned data banned)) "data"
       (with_banned (js_set data "data" (with_banned data banned)) banned)
     = js_set data "data" (with_banned data banned).
Proof.
  intros Hc. destruct (complete_is_object data Hc) as (m & ->).
  unfold complete in *. simpl in *. split.
  - rewrite lookup_insert_eq, lookup_insert_ne by discriminate.
    destruct (m !! "stats") as [s|]; simpl in *; [|discriminate].
    destruct (truthy s); simpl in *; [reflexivity | discriminate].
  - unfold with_banned. simpl. rewrite lookup_insert_eq. simpl.
    now rewrite !insert_insert_eq.
Qed.

(** X6: when the cache file exists, [createPlayerData] settles without
    asking the name-history service, whatever the state of the gate and
    with no polling at all, and the snapshot is never rebuilt: a cache
    file that cannot be read or parsed makes the call reject with that
    error, and one that holds an incomplete value has that value
    returned as it is when [body.png] is in place and rejected otherwise,
    the world being left as it was. *)
Theorem cache_hit_asks_nobody (E : env) (uuid : string) (banned : bool) (w : world) :
  existsSync w (cachefile_of E uuid) = true ->
  forall fuel,
    exists w' out,
      createPlayerData E fuel uuid banned w = Some (w', out)
      /\ requests w' = requests w
      /\ (forall e, read_json w (cachefile_of E uuid) = inl e ->
          w' = w /\ out = Rejected e)
      /\ (forall j, read_json w (cachefile_of E uuid) = inr j -> complete j = false ->
          w' = w
          /\ out = if existsSync w (bodyfile_of E uuid)
                   then Resolved j else Rejected ErrUndefined).
Proof.
  intros Hex fuel. rewrite createPlayerData_load. unfold bind, load_data. rewrite Hex.
  destruct (read_json w (cachefile_of E uuid)) as [e|j].
  - exists w, (Rejected e). split; [reflexivity|]. split; [reflexivity|].
    split; [|discriminate]. intros e' [= <-]. auto.
  - destruct (finish_total E uuid banned j w) as (w' & out & Hfin & Hreq & _).
    exists w', out. split; [exact Hfin|]. split; [exact Hreq|].
    split; [discriminate|]. intros j' [= <-] Hc.
    destruct (existsSync w (bodyfile_of E uuid)) eqn:Hb.
    + rewrite finish_body_present in Hfin by exact Hb. now injection Hfin as <- <-.
    + rewrite finish_incomplete in Hfin by assumption. now injection Hfin as <- <-.
Qed.

Lemma cache_hit_asks_nobody_witness :
  let w := World true [] 0 {[ Sample.cachefile := FileJson (Sample.cached false) ]} [] in
  exists w' out,
    createPlayerData Sample.E 0 Sample.uuid true w = Some (w', out)
    /\ requests w' = requests w.
Proof.
  intros w.
  destruct (cache_hit_asks_nobody Sample.E Sample.uuid true w eq_refl 0%nat)
    as (w' & out & Hrun & Hreq & _).
  exists w', out. auto.
Defined.

(** X7: a snapshot that [createPlayerData] yields without [body.png] is
    yielded again, unchanged, by any later call with the same ban flag on
    the world the first call left, and that call asks the name-history
    service nothing. *)
Theorem repeated_call_same_snapshot (E : env) (uuid : string) (banned : bool) (w : world) :
  gate_live E w ->
  existsSync w (bodyfile_of E uuid) = false ->
  exists n, forall fuel, (n <= fuel)%nat ->
    exists w' out,
      createPlayerData E fuel uuid banned w = Some (w', out)
      /\ forall d, out = Resolved d ->
           forall fuel2, exists w'',
             createPlayerData E fuel2 uuid banned w' = Some (w'', Resolved d)
             /\ requests w'' = requests w'.
Proof.
  intros Hlive Hbody.
  destruct (load_data_runs E uuid w Hlive) as (n & Hrun).
  exists n. intros fuel Hfuel.
  destruct (Hrun fuel Hfuel) as (w1 & o1 & Hload & Hf1 & _).
  rewrite createPlayerData_load. unfold bind. rewrite Hload.
  assert (Hbody1 : existsSync w1 (bodyfile_of E uuid) = false)
    by (now rewrite (existsSync_same_files w w1)).
  destruct o1 as [data|e|]; try (eexists _, _; split; [reflexivity | discriminate]).
  destruct (complete data) eqn:Hc.
  2:{ rewrite finish_incomplete by assumption.
      eexists _, _; split; [reflexivity | discriminate]. }
  destruct (finish_complete E uuid banned data w1 Hbody1 Hc)
    as (w' & d & -> & Hd & _ & Hcache & _).
  exists w', (Resolved d). split; [reflexivity|].
  intros d' [= <-] fuel2.
  rewrite (createPlayerData_cached _ _ _ _ _ d Hcache).
  destruct (with_banned_again data banned Hc) as (Hc2 & Hagain).
  rewrite <- Hd in Hc2, Hagain.
  destruct (finish_total E uuid banned d w') as (w'' & out & Hfin & Hreq & _ & _ & Hpresent & _).
  exists w''. rewrite Hfin. split; [|exact Hreq]. f_equal. f_equal.
  destruct (existsSync w' (bodyfile_of E uuid)) eqn:Hb2.
  - now destruct (Hpresent eq_refl).
  - destruct (finish_complete E uuid banned d w' Hb2 Hc2) as (w3 & d3 & Hfin3 & Hd3 & _).
    rewrite Hfin in Hfin3. injection Hfin3 as _ ->. now rewrite Hd3, Hagain.
Qed.

Lemma repeated_call_same_snapshot_witness :
  let w := Sample.fresh (Sample.save None) in
  exists n, forall fuel, (n <= fuel)%nat ->
    exists w' out,
      createPlayerData Sample.E fuel Sample.uuid true w = Some (w', out)
      /\ forall d, out = Resolved d ->
           forall fuel2, exists w'',
             createPlayerData Sample.E fuel2 Sample.uuid true w' = Some (w'', Resolved d)
             /\ requests w'' = requests w'.
Proof.
  intros w.
  exact (repeated_call_same_snapshot Sample.E Sample.uuid true w
           (sample_gate_live _ _) eq_refl).
Defined.

(** ** The gate, call after call *)

Lemma gate_after_live E w w' : gate_after w w' -> gate_live E w -> gate_live E w'.
Proof.
  intros [Hs|Ht] Hlive; [eapply same_gate_live; eauto | intros _; exact Ht].
Qed.

Lemma gate_after_trans w1 w2 w3 : gate_after w1 w2 -> gate_after w2 w3 -> gate_after w1 w3.
Proof.
  intros [H12|H2] [H23|H3]; try (right; assumption).
  - left. eapply same_gate_trans; eauto.
  - right. destruct H23 as (_ & -> & _). exact H2.
Qed.

Lemma fire_due_timers_incl w t : In t (timers (fire_due w)) -> In t (timers w).
Proof.
  unfold fire_due. destruct (existsb _ _); simpl; [|auto].
  intros H. apply List.filter_In in H. tauto.
Qed.

(** An unlocked flag stays unlocked while time passes. *)
Lemma advance_unlocked d w : apiLimited w = false -> apiLimited (advance d w) = false.
Proof.
  unfold advance, fire_due. simpl. now destruct (existsb _ _).
Qed.

(** A call that returns has passed the gate in a world [w0] that differs
    from the first in clock, flag and timers only; when it had to wait,
    one of the timers it found pending was due by then. *)
Lemma getMojangAPI_inv E fuel url : forall w r,
  getMojangAPI E fuel url w = Some r ->
  exists w0,
    r = api_pass E url w0
    /\ must_wait E w0 = false
    /\ files w0 = files w /\ trace w0 = trace w /\ clock w <= clock w0
    /\ (w0 = w \/ (must_wait E w = true
                   /\ exists t, In t (timers w) /\ timer_due t <= clock w0)).
Proof.
  induction fuel as [|fuel IH]; intros w r Hr; [discriminate|].
  destruct (must_wait E w) eqn:Hw.
  - rewrite getMojangAPI_locked in Hr by exact Hw.
    destruct (IH _ _ Hr) as (w0 & -> & Hopen & Hf & Ht & Hc & Hcase).
    rewrite advance_files in Hf. rewrite advance_trace in Ht.
    rewrite advance_clock in Hc.
    exists w0. repeat split; auto; [lia|]. right. split; [reflexivity|].
    destruct Hcase as [-> | (_ & t & Hin & Hdue)].
    + unfold advance, fire_due in Hopen |- *. simpl in *.
      destruct (existsb (is_due (clock w + 10)) (timers w)) eqn:Hfire.
      * apply existsb_exists in Hfire as (t & Hin & Hdue).
        exists t. split; [exact Hin|]. simpl. unfold is_due in Hdue.
        now apply Z.leb_le in Hdue.
      * unfold must_wait in Hopen, Hw. simpl in Hopen. congruence.
    + exists t. split; [|exact Hdue].
      unfold advance in Hin. apply fire_due_timers_incl in Hin. exact Hin.
  - rewrite getMojangAPI_open in Hr by exact Hw. injection Hr as <-.
    exists w. repeat split; auto. lia.
Qed.

Lemma api_pass_timers E url w0 : timers (fst (api_pass E url w0)) <> [].
Proof.
  destruct (api_pass_spec E url w0) as (ts & _ & _ & _ & H).
  destruct (fst (http E url (clock w0))); destruct H as (_ & ->); discriminate.
Qed.



(** X9: the rate limit holds between consecutive calls.  When a call
    made through a clear gate has returned, the next call issues its
    request no sooner than the scheduled delay after the first one
    settled: [ratelimit * 1000] milliseconds after a success and
    [ratelimit * 3000] after a failure (as Node runs the timer). *)
Theorem consecutive_requests_spaced (E : env) (url1 url2 : string) (w w1 w2 : world)
    (fuel1 fuel2 : nat) out1 out2 :
  api_ratelimit (cfg E) <> 0 ->
  apiLimited w = false ->
  timers w = [] ->
  getMojangAPI E fuel1 url1 w = Some (w1, out1) ->
  getMojangAPI E fuel2 url2 w1 = Some (w2, out2) ->
  exists w0,
    (w2, out2) = api_pass E url2 w0
    /\ clock w1 + node_delay (api_ratelimit (cfg E) *
                              match out1 with
                              | Resolved _ => 1000
                              | _ => 3000
                              end) <= clock w0.
Proof.
  intros Hrl Hflag Ht H1 H2.
  assert (Hopen : must_wait E w = false).
  { unfold must_wait. rewrite Hflag. apply andb_false_r. }
  destruct fuel1 as [|fuel1]; [discriminate|].
  rewrite getMojangAPI_open in H1 by exact Hopen.
  assert (Hw1 : apiLimited w1 = true
                /\ timers w1 = [Timer (clock w1)
                                  (api_ratelimit (cfg E) *
                                   match out1 with Resolved _ => 1000 | _ => 3000 end)]).
  { unfold api_pass in H1.
    destruct (http E url1 (clock w)) as [res lat]. simpl in H1.
    assert (Hadv : advance (Z.of_nat lat) (api_acquire url1 w)
                   = set_clock (clock w + Z.of_nat lat) (api_acquire url1 w)).
    { unfold advance, fire_due. simpl. now rewrite Ht. }
    rewrite Hadv in H1. destruct res; simpl in H1; injection H1 as <- <-; simpl;
      rewrite Ht; auto. }
  destruct Hw1 as (Hflag1 & Ht1).
  destruct (getMojangAPI_inv E fuel2 url2 w1 _ H2) as (w0 & Hr & Hopen0 & _ & _ & _ & Hcase).
  exists w0. split; [exact Hr|].
  assert (Hwait1 : must_wait E w1 = true).
  { unfold must_wait. rewrite Hflag1.
    destruct (Z.eqb_spec (api_ratelimit (cfg E)) 0); [contradiction | reflexivity]. }
  destruct Hcase as [-> | (_ & t & Hin & Hdue)]; [congruence|].
  rewrite Ht1 in Hin. destruct Hin as [<- | []].
  exact Hdue.
Qed.

Lemma consecutive_requests_spaced_witness :
  exists w1 out1 w2 out2 w0,
    getMojangAPI Sample.E 1 "a" (Sample.fresh ∅) = Some (w1, out1)
    /\ getMojangAPI Sample.E 200 "b" w1 = Some (w2, out2)
    /\ (w2, out2) = api_pass Sample.E "b" w0
    /\ clock w1 + node_delay (api_ratelimit (cfg Sample.E) *
                              match out1 with
                              | Resolved _ => 1000
                              | _ => 3000
                              end) <= clock w0.
Proof.
  destruct (getMojangAPI Sample.E 1 "a" (Sample.fresh ∅)) as [[w1 out1]|] eqn:H1;
    [|vm_compute in H1; discriminate H1].
  pose proof H1 as H1'. vm_compute in H1'. injection H1' as Hw1 Ho1.
  destruct (getMojangAPI Sample.E 200 "b" w1) as [[w2 out2]|] eqn:H2;
    [|rewrite <- Hw1 in H2; vm_compute in H2; discriminate H2].
  destruct (consecutive_requests_spaced Sample.E "a" "b" (Sample.fresh ∅) w1 w2 1 200
              out1 out2) as (w0 & Hpass & Hclock);
    [intros H; discriminate H | reflexivity | reflexivity | exact H1 | exact H2 |].
  exists w1, out1, w2, out2, w0. auto.
Defined.

Lemma getNameHistory_gate E fuel uuid w w' out :
  getNameHistory E fuel uuid w = Some (w', out) -> timers w' <> [].
Proof.
  unfold getNameHistory, bind, try_catch. intros H.
  destruct (getMojangAPI E fuel (apiNameHistory uuid) w) as [r|] eqn:Hr; [|discriminate].
  destruct (getMojangAPI_inv E fuel _ w r Hr) as (w0 & -> & _).
  pose proof (api_pass_timers E (apiNameHistory uuid) w0) as Ht.
  destruct (api_pass E (apiNameHistory uuid) w0) as [w1 [[h|]|e|]]; simpl in *;
    injection H as <- _; exact Ht.
Qed.

Lemma getPlayerData_gate E fuel uuid w w' out :
  getPlayerData E fuel uuid w = Some (w', out) -> gate_after w w'.
Proof.
  unfold getPlayerData.
  destruct (load_nbt w _) as [n|].
  - unfold bind, try_catch. intros H.
    destruct (getNameHistory E fuel (strip_dashes uuid) _) as [[w1 o]|] eqn:Hh;
      [|discriminate].
    apply getNameHistory_gate in Hh. right.
    destruct o as [[[|first rest]|]|e|]; simpl in H;
      try (injection H as <- _; exact Hh).
    destruct (firstPlayed n), (lastPlayed n); simpl in H; injection H as <- _; exact Hh.
  - intros [= <- _]. left. apply same_gate_emit.
Qed.

Lemma getPlayerTotalData_gate E fuel uuid w w' out :
  getPlayerTotalData E fuel uuid w = Some (w', out) -> gate_after w w'.
Proof.
  unfold getPlayerTotalData, try_catch, bind.
  destruct (getPlayerState_spec E uuid w) as (w1 & o1 & -> & _ & Hg1 & _).
  destruct o1 as [s|e|]; try (intros [= <- _]; now left).
  destruct (getPlayerAdvancements_spec E uuid w1) as (w2 & o2 & -> & _ & Hg2 & _).
  assert (Hg12 : gate_after w w2) by (left; eapply same_gate_trans; eauto).
  destruct o2 as [adv|e|]; try (intros [= <- _]; exact Hg12).
  destruct (getPlayerData E fuel uuid w2) as [[w3 o3]|] eqn:Hd; [|discriminate].
  apply getPlayerData_gate in Hd.
  assert (Hg13 : gate_after w w3) by (eapply gate_after_trans; eauto).
  destruct o3; intros [= <- _]; exact Hg13.
Qed.

Lemma createPlayerData_gate E fuel uuid banned w w' out :
  createPlayerData E fuel uuid banned w = Some (w', out) -> gate_after w w'.
Proof.
  rewrite createPlayerData_load. unfold bind, load_data.
  assert (Hfin : forall data w1, gate_after w w1 ->
            finish E uuid banned data w1 = Some (w', out) -> gate_after w w').
  { intros data w1 Hg H.
    destruct (finish_total E uuid banned data w1) as (w2 & o2 & Hf & _ & Hs & _).
    rewrite Hf in H. injection H as <- _.
    eapply gate_after_trans; [exact Hg | now left]. }
  destruct (existsSync w (cachefile_of E uuid)).
  - destruct (read_json w _) as [e|j].
    + intros [= <- _]. left. apply same_gate_refl.
    + apply Hfin. left. apply same_gate_refl.
  - destruct (getPlayerTotalData E fuel uuid w) as [[w1 o1]|] eqn:Ht; [|discriminate].
    apply getPlayerTotalData_gate in Ht.
    destruct o1 as [data|e|]; try (intros [= <- _]; exact Ht).
    now apply Hfin.
Qed.

(** The asset check never leaves its promise unsettled. *)
Lemma finish_not_pending E uuid banned data w w' :
  finish E uuid banned data w <> Some (w', Pending).
Proof.
  destruct (finish_total E uuid banned data w) as (w2 & out & Hf & _ & _ & _ & Hb & _).
  rewrite Hf. intros [= -> ->].
  unfold finish in Hf.
  destruct (existsSync w (bodyfile_of E uuid)); [discriminate Hf|].
  destruct (complete data); [|discriminate Hf].
  unfold bind, try_catch, getPlayerAssets, effect, ret in Hf.
  destruct (ensureDirSync _ w) as [w1 [e|]]; discriminate Hf.
Qed.

(** [createPlayerData] settles, by resolving or by rejecting, whenever the
    gate is live and the player file, if it decodes, has its two
    timestamps. *)
Lemma createPlayerData_settles E uuid banned w :
  gate_live E w ->
  timestamps_present E uuid w = true ->
  exists n, forall fuel, (n <= fuel)%nat ->
    exists w' out, createPlayerData E fuel uuid banned w = Some (w', out) /\ out <> Pending.
Proof.
  intros Hlive Hts.
  assert (Hfin : forall data w1, exists w' out,
            finish E uuid banned data w1 = Some (w', out) /\ out <> Pending).
  { intros data w1.
    destruct (finish_total E uuid banned data w1) as (w' & out & Hf & _).
    exists w', out. split; [exact Hf|].
    intros ->. exact (finish_not_pending _ _ _ _ _ _ Hf). }
  destruct (existsSync w (cachefile_of E uuid)) eqn:Hcache.
  { exists 0%nat. intros fuel _.
    rewrite createPlayerData_load. unfold bind, load_data. rewrite Hcache.
    destruct (read_json w _) as [e|j]; [|apply Hfin].
    eexists _, _. split; [reflexivity | discriminate]. }
  destruct (stats_source E uuid w) as [src|] eqn:Hsrc;
    [destruct (advancements_source E uuid w) as [adv|] eqn:Hadv;
     [destruct (player_source E uuid w) as [n|] eqn:Hpl|]|].
  2-4: exists 0%nat; intros fuel _;
       destruct (createPlayerData_null E fuel uuid banned w Hcache) as (w1 & _ & _ & ->);
       [auto | apply Hfin].
  destruct (createPlayerData_lookup E uuid banned w src adv n Hcache Hsrc Hadv Hpl Hlive)
    as (n0 & w0 & Hrun).
  exists n0. intros fuel Hfuel. destruct (Hrun fuel Hfuel) as (w1 & _ & ->).
  unfold timestamps_present in Hts. rewrite Hpl in Hts.
  unfold player_outcome.
  destruct (history_of _) as [[|first rest]|]; simpl; try apply Hfin.
  destruct (firstPlayed n); [|discriminate Hts].
  destruct (lastPlayed n); [|discriminate Hts].
  apply Hfin.
Qed.

(** X10: calls can be chained.  A call of [createPlayerData] made while
    the gate is live, for a player whose file, if it decodes, carries
    [firstPlayed] and [lastPlayed], settles: it resolves or rejects.  It
    leaves the gate live, so that the next call, for such a player,
    settles as well. *)
Theorem gate_stays_live (E : env) (uuid : string) (banned : bool) (w : world) :
  gate_live E w ->
  timestamps_present E uuid w = true ->
  exists n, forall fuel, (n <= fuel)%nat ->
    exists w' out,
      createPlayerData E fuel uuid banned w = Some (w', out)
      /\ out <> Pending
      /\ gate_live E w'
      /\ forall uuid2 banned2,
           timestamps_present E uuid2 w' = true ->
           exists n2, forall fuel2, (n2 <= fuel2)%nat ->
             exists w'' out2,
               createPlayerData E fuel2 uuid2 banned2 w' = Some (w'', out2)
               /\ out2 <> Pending.
Proof.
  intros Hlive Hts.
  destruct (createPlayerData_settles E uuid banned w Hlive Hts) as (n & Hrun).
  exists n. intros fuel Hfuel. destruct (Hrun fuel Hfuel) as (w' & out & Hr & Hout).
  exists w', out. split; [exact Hr|]. split; [exact Hout|].
  assert (Hlive' : gate_live E w').
  { eapply gate_after_live; [eapply createPlayerData_gate; exact Hr | exact Hlive]. }
  split; [exact Hlive'|].
  intros uuid2 banned2 Hts2.
  exact (createPlayerData_settles E uuid2 banned2 w' Hlive' Hts2).
Qed.

Lemma gate_stays_live_witness :
  let w := Sample.fresh (Sample.save None) in
  timestamps_present Sample.E Sample.uuid w = true
  /\ exists n, forall fuel, (n <= fuel)%nat ->
    exists w' out,
      createPlayerData Sample.E fuel Sample.uuid false w = Some (w', out)
      /\ out <> Pending
      /\ gate_live Sample.E w'
      /\ forall uuid2 banned2,
           timestamps_present Sample.E uuid2 w' = true ->
           exists n2, forall fuel2, (n2 <= fuel2)%nat ->
             exists w'' out2,
               createPlayerData Sample.E fuel2 uuid2 banned2 w' = Some (w'', out2)
               /\ out2 <> Pending.
Proof.
  intros w. split; [reflexivity|].
  exact (gate_stays_live Sample.E Sample.uuid false w (sample_gate_live _ _) eq_refl).
Defined.

(** X11: whatever the outcome, [createPlayerData] has written nothing
    but the cache file and the directories on the way to the directory of
    the player, that directory included: the save of the server is never
    touched.  With [body.png] in place it writes and downloads nothing at
    all.  It downloads exactly when it resolves without [body.png] and
    the directory can be made, nothing but directories being on the way
    to it, and then the three assets, once each. *)
Theorem writes_only_cache_and_directory (E : env) (uuid : string) (banned : bool) (w : world) :
  gate_live E w ->
  exists n, forall fuel, (n <= fuel)%nat ->
    exists w' out,
      createPlayerData E fuel uuid banned w = Some (w', out)
      /\ untouched_elsewhere E uuid w w'
      /\ (existsSync w (bodyfile_of E uuid) = true ->
          files w' = files w /\ downloads w' = downloads w)
      /\ downloads w' = downloads w ++
           match out with
           | Resolved _ =>
               if existsSync w (bodyfile_of E uuid) || dir_blocked w (playerpath_of E uuid)
               then [] else asset_downloads E uuid
           | _ => []
           end.
Proof.
  intros Hlive. destruct (load_data_runs E uuid w Hlive) as (n & Hrun).
  exists n. intros fuel Hfuel.
  destruct (Hrun fuel Hfuel) as (w1 & o1 & Hload & Hf1 & Hd1).
  rewrite createPlayerData_load. unfold bind. rewrite Hload.
  assert (Hun1 : untouched_elsewhere E uuid w w1) by (intros p _ _; now rewrite Hf1).
  destruct o1 as [data|e|].
  2,3: eexists _, _; split; [reflexivity|]; rewrite app_nil_r; auto.
  destruct (finish_total E uuid banned data w1)
    as (w' & out & -> & _ & _ & Hun & Hpresent & Hdl).
  exists w', out. split; [reflexivity|].
  rewrite (existsSync_same_files w w1), (dir_blocked_same_files w w1), Hd1 in * by exact Hf1.
  split; [|split; [|exact Hdl]].
  - intros p Hp1 Hp2. rewrite (Hun p Hp1 Hp2). now rewrite Hf1.
  - intros Hb. destruct (Hpresent Hb) as (-> & _). auto.
Qed.

Lemma writes_only_cache_and_directory_witness :
  let w := Sample.fresh (Sample.save None) in
  exists n, forall fuel, (n <= fuel)%nat ->
    exists w' out,
      createPlayerData Sample.E fuel Sample.uuid false w = Some (w', out)
      /\ untouched_elsewhere Sample.E Sample.uuid w w'
      /\ (existsSync w (bodyfile_of Sample.E Sample.uuid) = true ->
          files w' = files w /\ downloads w' = downloads w)
      /\ downloads w' = downloads w ++
           match out with
           | Resolved _ =>
               if existsSync w (bodyfile_of Sample.E Sample.uuid)
                  || dir_blocked w (playerpath_of Sample.E Sample.uuid)
               then [] else asset_downloads Sample.E Sample.uuid
           | _ => []
           end.
Proof.
  intros w.
  exact (writes_only_cache_and_directory Sample.E Sample.uuid false w (sample_gate_live _ _)).
Defined.

(** ** Failures of the build *)

(** The local readers ask the service nothing. *)
Lemma getPlayerState_requests E uuid w w1 out :
  getPlayerState E uuid w = Some (w1, out) -> requests w1 = requests w.
Proof.
  unfold getPlayerState.
  destruct (configured _); [|now intros [= <- _]].
  destruct (readable w _); [|now intros [= <- _]].
  destruct (read_json w _); now intros [= <- _].
Qed.

Lemma getPlayerAdvancements_requests E uuid w w1 out :
  getPlayerAdvancements E uuid w = Some (w1, out) -> requests w1 = requests w.
Proof.
  unfold getPlayerAdvancements.
  destruct (configured _); [|now intros [= <- _]].
  destruct (readable w _); [|now intros [= <- _]].
  destruct (read_json w _); now intros [= <- _].
Qed.

(** X12: [getPlayerTotalData] fails fast and never rejects.  When the
    statistics file, the advancements file or the player file cannot be
    read it returns [null] without asking the name-history service; in
    every case it settles with a value or not at all, never with a
    rejection. *)
Theorem total_data_fails_fast (E : env) (uuid : string) (w : world) :
  gate_live E w ->
  (stats_source E uuid w = None \/ advancements_source E uuid w = None
   \/ player_source E uuid w = None ->
   forall fuel, exists w1,
     getPlayerTotalData E fuel uuid w = Some (w1, Resolved JNull)
     /\ requests w1 = requests w)
  /\ exists n, forall fuel, (n <= fuel)%nat ->
       exists w1 out,
         getPlayerTotalData E fuel uuid w = Some (w1, out)
         /\ forall e, out <> Rejected e.
Proof.
  intros Hlive. split.
  - intros Hmiss fuel.
    destruct (getPlayerTotalData_null E fuel uuid w Hmiss) as (w1 & Hrun & _).
    exists w1. split; [exact Hrun|].
    revert Hrun. unfold getPlayerTotalData, try_catch, bind.
    destruct (getPlayerState E uuid w) as [[wa oa]|] eqn:Ha; [|discriminate].
    pose proof (getPlayerState_requests _ _ _ _ _ Ha) as Hra.
    destruct (getPlayerState_spec E uuid w) as (wa' & oa' & Ha' & [Hfa _] & _ & Hoa).
    rewrite Ha in Ha'. injection Ha' as <- <-.
    destruct oa as [s|e|]; [| intros [= <-]; exact Hra | discriminate].
    destruct (getPlayerAdvancements E uuid wa) as [[wb ob]|] eqn:Hb; [|discriminate].
    pose proof (getPlayerAdvancements_requests _ _ _ _ _ Hb) as Hrb.
    destruct (getPlayerAdvancements_spec E uuid wa) as (wb' & ob' & Hb' & [Hfb _] & _ & Hob).
    rewrite Hb in Hb'. injection Hb' as <- <-.
    destruct ob as [adv|e|]; [| intros [= <-]; congruence | discriminate].
    assert (Hpl : player_source E uuid wb = None).
    { assert (Hadv : advancements_source E uuid wa = advancements_source E uuid w).
      { unfold advancements_source. destruct (configured _); [|reflexivity].
        now rewrite (read_json_same_files w wa). }
      rewrite Hadv in Hob.
      destruct Hmiss as [Hm|[Hm|Hm]].
      - rewrite Hm in Hoa. destruct Hoa as (e & He). discriminate He.
      - rewrite Hm in Hob. destruct Hob as (e & He). discriminate He.
      - unfold player_source, load_nbt in *. now rewrite Hfb, Hfa. }
    unfold getPlayerData. unfold player_source in Hpl. rewrite Hpl.
    intros [= <-]. rewrite requests_emit_log. congruence.
  - destruct (stats_source E uuid w) as [src|] eqn:Hsrc;
      [destruct (advancements_source E uuid w) as [adv|] eqn:Hadv;
       [destruct (player_source E uuid w) as [n|] eqn:Hpl|]|].
    + destruct (getPlayerTotalData_runs E uuid w src adv n Hsrc Hadv Hpl Hlive)
        as (n0 & w0 & _ & Hrun).
      exists n0. intros fuel Hfuel. destruct (Hrun fuel Hfuel) as (w1 & -> & _).
      eexists _, _. split; [reflexivity|].
      destruct (player_outcome _ _ _ _); discriminate.
    + exists 0%nat. intros fuel _.
      destruct (getPlayerTotalData_null E fuel uuid w) as (w1 & -> & _); [auto|].
      eexists _, _. split; [reflexivity | discriminate].
    + exists 0%nat. intros fuel _.
      destruct (getPlayerTotalData_null E fuel uuid w) as (w1 & -> & _); [auto|].
      eexists _, _. split; [reflexivity | discriminate].
    + exists 0%nat. intros fuel _.
      destruct (getPlayerTotalData_null E fuel uuid w) as (w1 & -> & _); [auto|].
      eexists _, _. split; [reflexivity | discriminate].
Qed.

Lemma total_data_fails_fast_witness :
  let w := Sample.fresh (delete Sample.datafile (Sample.save None)) in
  exists w1,
    getPlayerTotalData Sample.E 0 Sample.uuid w = Some (w1, Resolved JNull)
    /\ requests w1 = requests w.
Proof.
  intros w.
  exact (proj1 (total_data_fails_fast Sample.E Sample.uuid w (sample_gate_live _ _))
           (or_intror (or_intror eq_refl)) 0%nat).
Defined.

(** X13: a player file that decodes but lacks [firstPlayed] or
    [lastPlayed] makes the callback of [getPlayerData] throw after the
    name history has been fetched; the promise is never settled, and
    neither is that of [createPlayerData] on a cache miss. *)
Theorem missing_timestamps_never_settle (E : env) (uuid : string) (banned : bool)
    (w : world) src adv n :
  gate_live E w ->
  existsSync w (cachefile_of E uuid) = false ->
  stats_source E uuid w = Some src ->
  advancements_source E uuid w = Some adv ->
  player_source E uuid w = Some n ->
  firstPlayed n = None \/ lastPlayed n = None ->
  has_history E uuid ->
  exists n0, forall fuel, (n0 <= fuel)%nat ->
    exists w',
      createPlayerData E fuel uuid banned w = Some (w', Pending)
      /\ requests w' <> requests w.
Proof.
  intros Hlive Hcache Hsrc Hadv Hpl Hmiss Hhas.
  destruct (createPlayerData_lookup E uuid banned w src adv n Hcache Hsrc Hadv Hpl Hlive)
    as (n0 & w0 & Hrun).
  exists n0. intros fuel Hfuel. destruct (Hrun fuel Hfuel) as (w1 & _ & Hr).
  specialize (Hhas (clock w0)). unfold player_outcome in Hr.
  destruct (history_of _) as [[|first rest]|]; try contradiction.
  assert (Hpend : createPlayerData E fuel uuid banned w = Some (w1, Pending)).
  { rewrite Hr. destruct Hmiss as [-> | ->]; [reflexivity|].
    now destruct (firstPlayed n). }
  exists w1. split; [exact Hpend|].
  clear Hr. revert Hpend.
  rewrite createPlayerData_load. unfold bind, load_data. rewrite Hcache.
  unfold getPlayerTotalData, try_catch, bind.
  destruct (getPlayerState_spec E uuid w) as (wa & oa & Ha & [Hfa _] & _ & Hoa).
  rewrite Hsrc in Hoa. subst oa. rewrite Ha.
  pose proof (getPlayerState_requests _ _ _ _ _ Ha) as Hra.
  destruct (getPlayerAdvancements_spec E uuid wa) as (wb & ob & Hb & [Hfb _] & _ & Hob).
  assert (Hadv' : advancements_source E uuid wa = Some adv).
  { rewrite <- Hadv. unfold advancements_source. destruct (configured _); [|reflexivity].
    now rewrite (read_json_same_files w wa). }
  rewrite Hadv' in Hob. subst ob. rewrite Hb.
  pose proof (getPlayerAdvancements_requests _ _ _ _ _ Hb) as Hrb.
  unfold getPlayerData.
  assert (Hpl' : load_nbt wb (path_join (render_playerdata (cfg E)) (uuid ++ ".dat")%string)
                 = Some n).
  { rewrite <- Hpl. unfold player_source, load_nbt. now rewrite Hfb, Hfa. }
  rewrite Hpl'.
  unfold bind, try_catch.
  destruct (getNameHistory E fuel (strip_dashes uuid) _) as [[wc oc]|] eqn:Hh; [|discriminate].
  assert (Hreq : exists url, requests wc = requests wb ++ [url]).
  { revert Hh. unfold getNameHistory, bind, try_catch.
    destruct (getMojangAPI E fuel _ _) as [r|] eqn:Hm; [|discriminate].
    destruct (getMojangAPI_inv E fuel _ _ r Hm) as (wz & -> & _ & _ & Htz & _).
    destruct (api_pass_spec E (apiNameHistory (strip_dashes uuid)) wz)
      as (ts & Hrq & _).
    rewrite (requests_same_trace _ wz Htz) in Hrq.
    destruct (api_pass E _ wz) as [wy [[h|]|e|]]; simpl in *;
      intros [= <- _]; eauto. }
  destruct Hreq as (url & Hreq).
  assert (Hne : requests wc <> requests w).
  { rewrite Hreq, Hrb, Hra. intros Heq.
    apply (f_equal (@List.length string)) in Heq. rewrite length_app in Heq.
    simpl in Heq. lia. }
  destruct oc as [[[|f r]|]|e|]; simpl;
    [| destruct (firstPlayed n), (lastPlayed n); simpl |..].
  all: try discriminate.
  all: try (intros [= <-]; exact Hne).
  all: intros H; exfalso; eapply finish_not_pending; exact H.
Qed.

Lemma missing_timestamps_never_settle_witness :
  let w := Sample.fresh (<[Sample.datafile := FileNbt (NbtPlayer (Some 72000) None None)]>
                           (Sample.save None)) in
  exists n0, forall fuel, (n0 <= fuel)%nat ->
    exists w',
      createPlayerData Sample.E fuel Sample.uuid false w = Some (w', Pending)
      /\ requests w' <> requests w.
Proof.
  intros w.
  exact (missing_timestamps_never_settle Sample.E Sample.uuid false w
           Sample.statistics (JObj ∅) (NbtPlayer (Some 72000) None None)
           (sample_gate_live _ _) eq_refl eq_refl eq_refl eq_refl
           (or_introl eq_refl) (sample_has_history 1)).
Defined.

(** ** Concurrent callers, further *)

Section Counting.
Variable f : Concurrent.caller -> bool.

Lemma tally_app l1 l2 : tally f (l1 ++ l2) = (tally f l1 + tally f l2)%nat.
Proof. unfold tally. now rewrite List.filter_app, length_app. Qed.

Lemma tally_insert l i c0 c :
  l !! i = Some c0 ->
  (tally f (<[i := c]> l) + (if f c0 then 1 else 0)
   = tally f l + (if f c then 1 else 0))%nat.
Proof.
  revert i. induction l as [|x l IH]; intros i Hi; [discriminate|].
  destruct i as [|i]; simpl in *.
  - injection Hi as ->. unfold tally. simpl. destruct (f c0), (f c); simpl; lia.
  - specialize (IH i Hi). unfold tally in *. simpl. destruct (f x); simpl; lia.
Qed.

End Counting.

Lemma settle_requests E url res w :
  requests (fst (api_settle E url res w)) = requests w.
Proof. now destruct res. Qed.

Lemma settle_past_gate E url res w :
  past_gate (Concurrent.settled url (snd (api_settle E url res w))) = true.
Proof. now destruct res. Qed.

(** X14: in the concurrent model, whatever the rate limit, every call
    that has passed the gate has issued exactly one request: the requests
    made since the start are as many as the calls that are in flight,
    have returned or have thrown.  No call asks twice, none returns
    without having asked. *)
Theorem one_request_per_call (E : env) (s0 s : Concurrent.system) :
  Concurrent.initial s0 ->
  rtc (Concurrent.step E) s0 s ->
  List.length (requests (Concurrent.shared s))
  = (List.length (requests (Concurrent.shared s0))
     + tally past_gate (Concurrent.callers s))%nat.
Proof.
  intros (_ & _ & Hc0) Hrtc. revert s Hrtc. apply rtc_ind_r.
  - rewrite Hc0. unfold tally. simpl. lia.
  - intros y z _ Hstep IH. inversion Hstep; subst;
      cbn [Concurrent.callers Concurrent.shared].
    + rewrite tally_app. unfold tally at 2. simpl. lia.
    + pose proof (tally_insert past_gate _ _ _
                    (Concurrent.Waiting url (clock (Concurrent.shared y) + 10)) H) as Ht.
      simpl in Ht. lia.
    + pose proof (tally_insert past_gate _ _ _ (Concurrent.InFlight url) H) as Ht.
      simpl in Ht. unfold api_acquire.
      rewrite requests_emit_request, requests_emit_log, length_app.
      change (requests (set_apiLimited true (Concurrent.shared y)))
        with (requests (Concurrent.shared y)).
      simpl. lia.
    + pose proof (tally_insert past_gate _ _ _ (Concurrent.Calling url) H) as Ht.
      simpl in Ht. lia.
    + pose proof (tally_insert past_gate _ _ _
                    (Concurrent.settled url
                       (snd (api_settle E url res (Concurrent.shared y)))) H) as Ht.
      rewrite settle_past_gate in Ht. simpl in Ht.
      rewrite settle_requests. lia.
    + exact IH.
    + exact IH.
Qed.

Lemma one_request_per_call_witness :
  let s0 := Concurrent.System (Sample.fresh ∅) [] in
  let s := Concurrent.System (api_acquire "u" (Sample.fresh ∅)) [Concurrent.InFlight "u"] in
  List.length (requests (Concurrent.shared s))
  = (List.length (requests (Concurrent.shared s0))
     + tally past_gate (Concurrent.callers s))%nat.
Proof.
  intros s0 s.
  apply (one_request_per_call Sample.E s0 s); [repeat split|].
  apply (rtc_l _ s0 (Concurrent.System (Sample.fresh ∅) [Concurrent.Calling "u"]) s);
    [exact (Concurrent.step_call Sample.E s0 "u")|].
  apply (rtc_l _ _ s s); [|apply rtc_refl].
  exact (Concurrent.step_acquire Sample.E
           (Concurrent.System (Sample.fresh ∅) [Concurrent.Calling "u"]) 0 "u"
           eq_refl eq_refl).
Defined.

(** X15: in the concurrent model, whatever the rate limit, the flag is
    never left set with nothing to clear it: while it is set, a request
    is in flight (which will settle and schedule the unlock) or an unlock
    timer is pending. *)
Theorem locked_flag_has_a_cause (E : env) (s : Concurrent.system) :
  Concurrent.reachable E s ->
  apiLimited (Concurrent.shared s) = true ->
  (1 <= Concurrent.count_in_flight s + List.length (timers (Concurrent.shared s)))%nat.
Proof.
  intros (s0 & (Hf0 & _ & _) & Hrtc). revert s Hrtc.
  refine (rtc_ind_r
            (fun s => apiLimited (Concurrent.shared s) = true ->
                      (1 <= Concurrent.count_in_flight s
                            + List.length (timers (Concurrent.shared s)))%nat)
            s0 _ _).
  - congruence.
  - intros y z _ Hstep IH. unfold Concurrent.count_in_flight in *.
    fold (Concurrent.flying (Concurrent.callers y)) in IH.
    fold (Concurrent.flying (Concurrent.callers z)).
    inversion Hstep; subst;
      cbn [Concurrent.callers Concurrent.shared timers apiLimited set_apiLimited
           set_timers set_clock api_acquire emit].
    + intros Hf. specialize (IH Hf). rewrite ConcurrentFacts.flying_app. lia.
    + intros Hf. specialize (IH Hf).
      pose proof (ConcurrentFacts.flying_insert _ _ _
                    (Concurrent.Waiting url (clock (Concurrent.shared y) + 10)) H) as Hw.
      unfold Concurrent.weight in Hw. simpl in Hw. lia.
    + intros _.
      pose proof (ConcurrentFacts.flying_insert _ _ _ (Concurrent.InFlight url) H) as Hw.
      unfold Concurrent.weight in Hw. simpl in Hw. lia.
    + intros Hf. specialize (IH Hf).
      pose proof (ConcurrentFacts.flying_insert _ _ _ (Concurrent.Calling url) H) as Hw.
      unfold Concurrent.weight in Hw. simpl in Hw. lia.
    + rewrite ConcurrentFacts.settle_flag, ConcurrentFacts.settle_timers. intros _. lia.
    + discriminate.
    + exact IH.
Qed.

Lemma locked_flag_has_a_cause_witness :
  let s := Concurrent.System (api_acquire "u" (Sample.fresh ∅)) [Concurrent.InFlight "u"] in
  (1 <= Concurrent.count_in_flight s + List.length (timers (Concurrent.shared s)))%nat.
Proof.
  intros s. apply (locked_flag_has_a_cause Sample.E s); [|reflexivity].
  exists (Concurrent.System (Sample.fresh ∅) []). split; [repeat split|].
  apply (rtc_l _ _ (Concurrent.System (Sample.fresh ∅) [Concurrent.Calling "u"]) s);
    [exact (Concurrent.step_call Sample.E _ "u")|].
  apply (rtc_l _ _ s s); [|apply rtc_refl].
  exact (Concurrent.step_acquire Sample.E
           (Concurrent.System (Sample.fresh ∅) [Concurrent.Calling "u"]) 0 "u"
           eq_refl eq_refl).
Defined.
